(** * SmartDevice: a shallow embedding of [src/SoloLinkedList.cpp]

    The C++ program defines one struct, [SmartDevice], whose methods mutate
    the object and write timestamped lines to an append-only log file and to
    the console.  The embedding keeps that shape:

    - the object is a record with the struct's members;
    - everything outside the object (the output streams, the system clock and
      the file system's answer to [open]) is a [World];
    - a method is a function on the pair (object, world), written in a small
      state monad so that the bodies read like the C++ ones.

    [int] is the 32-bit two's-complement integer of the target; its
    arithmetic is written with the wrap-around explicit, which is what the
    target computes where the C++ standard leaves signed overflow
    undefined.  [float] is IEEE binary32, taken from the Standard Library's
    [SpecFloat]. *)

From Stdlib Require Import ZArith String Ascii List Lia Bool.
From Stdlib Require Import Floats.SpecFloat.
From Stdlib Require Import DecimalString.
Import ListNotations.

Local Open Scope string_scope.
Local Open Scope Z_scope.

(** ** Machine integers *)

Definition INT_MIN : Z := -2147483648.
Definition INT_MAX : Z := 2147483647.

(** The value an [int] holds after a result [z] is stored in it. *)
Definition wrap_int (z : Z) : Z := (z + 2 ^ 31) mod 2 ^ 32 - 2 ^ 31.

Definition int_add (a b : Z) : Z := wrap_int (a + b).
Definition int_sub (a b : Z) : Z := wrap_int (a - b).

(** [std::to_string(int)]: decimal digits, a leading minus sign for negative
    values. *)
Definition to_string (z : Z) : string := NilZero.string_of_int (Z.to_int z).

(** ** Single-precision floats *)

Definition float : Type := spec_float.

Definition float_prec : Z := 24.
Definition float_emax : Z := 128.

Definition float_add (x y : float) : float := SFadd float_prec float_emax x y.
Definition float_lt (x y : float) : bool := SFltb x y.

(** The implicit conversion of an [int] operand in a comparison with a
    [float]. *)
Definition float_of_int (z : Z) : float :=
  binary_normalize float_prec float_emax z 0 false.

(** The literal [20.0f]. *)
Definition float_20 : float := S754_finite false 10485760 (-19).

(** ** A sample platform

    The embedding leaves the two library formatters open.  Where a concrete
    run is needed, it uses the following pair: timestamps of a machine
    whose local time is UTC, and the fixed six-decimal rendering of
    [printf("%f")]. *)

Definition pad (width : nat) (s : string) : string :=
  string_of_list_ascii (repeat "0"%char (width - String.length s)) ++ s.

Definition utc_put_time (t : Z) : string :=
  let days := t / 86400 in
  let secs := t mod 86400 in
  let z := days + 719468 in
  let era := z / 146097 in
  let doe := z mod 146097 in
  let yoe := (doe - doe / 1460 + doe / 36524 - doe / 146096) / 365 in
  let doy := doe - (365 * yoe + yoe / 4 - yoe / 100) in
  let mp := (5 * doy + 2) / 153 in
  let day := doy - (153 * mp + 2) / 5 + 1 in
  let month := if mp <? 10 then mp + 3 else mp - 9 in
  let year := yoe + era * 400 + (if month <=? 2 then 1 else 0) in
  pad 4 (to_string year) ++ "-" ++ pad 2 (to_string month) ++ "-"
    ++ pad 2 (to_string day) ++ " " ++ pad 2 (to_string (secs / 3600)) ++ ":"
    ++ pad 2 (to_string (secs mod 3600 / 60)) ++ ":"
    ++ pad 2 (to_string (secs mod 60)).

Definition fixed6 (x : float) : string :=
  match x with
  | S754_zero s => (if s then "-" else "") ++ "0.000000"
  | S754_infinity s => (if s then "-" else "") ++ "inf"
  | S754_nan => "nan"
  | S754_finite s m e =>
      let num := Z.pos m * 10 ^ 6 * 2 ^ e in
      let den := 2 ^ (- e) in
      let q := if 0 <=? e then num else Z.pos m * 10 ^ 6 / den in
      let r := if 0 <=? e then 0 else (Z.pos m * 10 ^ 6) mod den in
      let q := if (den <? 2 * r) || ((den =? 2 * r) && Z.odd q)
               then q + 1 else q in
      (if s then "-" else "") ++ to_string (q / 10 ^ 6) ++ "."
        ++ pad 6 (to_string (q mod 10 ^ 6))
  end.

(** ** The object and its environment *)

Record SmartDevice : Type := mkSmartDevice {
  deviceName : string;
  deviceType : string;
  isPoweredOn : bool;
  batteryLevel : Z;
  temperature : float;
  location : string;
  (** [logFile]: the only part of the stream the code inspects is
      [logFile.is_open()]; what is written through it is in the world. *)
  logFile_is_open : bool
}.

(** One output statement, [stream << ... << endl], with the text it wrote. *)
Inductive Event : Type :=
| FileWrite (text : string)
| Cout (text : string)
| Cerr (text : string).

Record World : Type := mkWorld {
  (** everything written so far, oldest first *)
  trace : list Event;
  (** how many times the system clock has been read *)
  clock_reads : nat;
  (** [time_source n] is the [time_t] the clock returns at its [n]-th read *)
  time_source : nat -> Z;
  (** whether opening the named file for appending succeeds *)
  can_open : string -> bool
}.

Definition endl : string := String (ascii_of_nat 10) EmptyString.

(** ** Methods as state transformers *)

Definition State : Type := (SmartDevice * World)%type.

Definition Method (A : Type) : Type := State -> A * State.

Definition ret {A : Type} (a : A) : Method A := fun s => (a, s).

Definition bind {A B : Type} (m : Method A) (k : A -> Method B) : Method B :=
  fun s => let (a, s') := m s in k a s'.

Notation "x <- m ;; k" := (bind m (fun x => k))
  (at level 61, m at next level, right associativity).
Notation "m ;; k" := (bind m (fun _ => k))
  (at level 61, right associativity).

(** The object the method runs on. *)
Definition this : Method SmartDevice := fun s => (fst s, s).

(** An assignment to members of the object. *)
Definition assign (f : SmartDevice -> SmartDevice) : Method unit :=
  fun s => (tt, (f (fst s), snd s)).

Definition emit (e : Event) (w : World) : World :=
  {| trace := trace w ++ [e];
     clock_reads := clock_reads w;
     time_source := time_source w;
     can_open := can_open w |}.

Definition output (e : Event) : Method unit :=
  fun s => (tt, (fst s, emit e (snd s))).

(** [chrono::system_clock::to_time_t(chrono::system_clock::now())] *)
Definition system_clock_now : Method Z :=
  fun s =>
    let w := snd s in
    (time_source w (clock_reads w),
     (fst s,
      {| trace := trace w;
         clock_reads := S (clock_reads w);
         time_source := time_source w;
         can_open := can_open w |})).

(** Member assignments. *)
Definition set_deviceName (v : string) (d : SmartDevice) : SmartDevice :=
  mkSmartDevice v (deviceType d) (isPoweredOn d) (batteryLevel d)
                (temperature d) (location d) (logFile_is_open d).
Definition set_deviceType (v : string) (d : SmartDevice) : SmartDevice :=
  mkSmartDevice (deviceName d) v (isPoweredOn d) (batteryLevel d)
                (temperature d) (location d) (logFile_is_open d).
Definition set_isPoweredOn (v : bool) (d : SmartDevice) : SmartDevice :=
  mkSmartDevice (deviceName d) (deviceType d) v (batteryLevel d)
                (temperature d) (location d) (logFile_is_open d).
Definition set_batteryLevel (v : Z) (d : SmartDevice) : SmartDevice :=
  mkSmartDevice (deviceName d) (deviceType d) (isPoweredOn d) v
                (temperature d) (location d) (logFile_is_open d).
Definition set_temperature (v : float) (d : SmartDevice) : SmartDevice :=
  mkSmartDevice (deviceName d) (deviceType d) (isPoweredOn d) (batteryLevel d)
                v (location d) (logFile_is_open d).
Definition set_location (v : string) (d : SmartDevice) : SmartDevice :=
  mkSmartDevice (deviceName d) (deviceType d) (isPoweredOn d) (batteryLevel d)
                (temperature d) v (logFile_is_open d).
Definition set_logFile_is_open (v : bool) (d : SmartDevice) : SmartDevice :=
  mkSmartDevice (deviceName d) (deviceType d) (isPoweredOn d) (batteryLevel d)
                (temperature d) (location d) v.

(** [logFile.open(filename, ios::app)] on a closed stream, which is how the
    constructors call it: the stream is open afterwards iff the file system
    lets the file be opened. *)
Definition ofstream_open (filename : string) : Method unit :=
  fun s =>
    (tt, (set_logFile_is_open (can_open (snd s) filename) (fst s), snd s)).

(** ** Calls and call sequences *)

(** The calls a client makes on a constructed object.  The getters are
    pure and appear as functions of the object; [initLogger] and [log] are
    the logging machinery the calls below go through. *)
Inductive Op : Type :=
| SetDeviceName (name : string)
| SetDeviceType (type : string)
| SetPoweredOn (powered : bool)
| SetBatteryLevel (level : Z)
| SetTemperature (temp : float)
| SetLocation (loc : string)
| PowerToggle
| ChargeBattery (amount : Z)
| AdjustTemperature (delta : float)
| DisplayInfo
| PerformDiagnostics.

(** The five constructors with their arguments. *)
Inductive Ctor : Type :=
| New
| NewNamed (name : string)
| NewNamedTyped (name type : string)
| NewNamedTypedAt (name type loc : string)
| NewFull (name type : string) (powered : bool) (battery : Z) (temp : float)
          (loc : string).

(** ** Reading a trace *)

Definition console_lines (evs : list Event) : list string :=
  flat_map (fun e => match e with Cout t => [t] | _ => [] end) evs.

Definition file_lines (evs : list Event) : list string :=
  flat_map (fun e => match e with FileWrite t => [t] | _ => [] end) evs.

Definition error_lines (evs : list Event) : list string :=
  flat_map (fun e => match e with Cerr t => [t] | _ => [] end) evs.

(** What was written between an earlier world and a later one. *)
Definition since (w w' : World) : list Event :=
  skipn (length (trace w)) (trace w').

(** The line format of the log. *)
Definition entry (timestamp name message : string) : string :=
  "[" ++ timestamp ++ "] " ++ name ++ ": " ++ message ++ endl.

(** The six data members, without the stream. *)
Definition fields (d : SmartDevice)
  : string * string * bool * Z * float * string :=
  (deviceName d, deviceType d, isPoweredOn d, batteryLevel d, temperature d,
   location d).

Definition in_percent_range (z : Z) : Prop := 0 <= z <= 100.

(** ** Counting what a call writes *)

(** The number of log entries a call makes. *)
Definition log_entries (op : Op) : nat :=
  match op with
  | DisplayInfo => 0
  | PerformDiagnostics => 7
  | _ => 1
  end.

(** The number of console writes of a call that are not log entries. *)
Definition plain_writes (op : Op) : nat :=
  match op with
  | DisplayInfo => 1
  | _ => 0
  end.

(** The number of log entries a constructor makes. *)
Definition ctor_entries (c : Ctor) : nat :=
  match c with
  | New => 1
  | NewNamed _ => 2
  | NewNamedTyped _ _ => 3
  | NewNamedTypedAt _ _ _ => 4
  | NewFull _ _ _ _ _ _ => 1
  end.

(** The data members a constructor is called for: the arguments it is
    given, and the defaults for the rest. *)
Definition ctor_fields (c : Ctor)
  : string * string * bool * Z * float * string :=
  match c with
  | New => ("Unknown", "Generic", false, 100, float_20, "Not set")
  | NewNamed name => (name, "Generic", false, 100, float_20, "Not set")
  | NewNamedTyped name type => (name, type, false, 100, float_20, "Not set")
  | NewNamedTypedAt name type loc => (name, type, false, 100, float_20, loc)
  | NewFull name type powered battery temp loc =>
      (name, type, powered, battery, temp, loc)
  end.

(** A call that is not a charge request, or a charge request for an amount
    between 0 and [INT_MAX - 100]. *)
Definition charge_in_range (op : Op) : bool :=
  match op with
  | ChargeBattery amount => (0 <=? amount) && (amount <=? INT_MAX - 100)
  | _ => true
  end.

(** A call that writes log entries only. *)
Definition logs_only (op : Op) : bool :=
  match op with
  | DisplayInfo => false
  | _ => true
  end.

(** The effect of a piece of a run on the world around an object whose sink
    is [open]: [n] log entries and [p] other console writes. *)
Definition effect (open : bool) (w w' : World) (n p : nat) : Prop :=
  (exists evs, trace w' = (trace w ++ evs)%list)
  /\ can_open w' = can_open w
  /\ time_source w' = time_source w
  /\ clock_reads w' = (clock_reads w + 2 * n)%nat
  /\ length (console_lines (since w w')) = (n + p)%nat
  /\ length (file_lines (since w w')) = (if open then n else 0)%nat
  /\ error_lines (since w w') = []
  /\ (p = 0%nat ->
      file_lines (since w w')
      = if open then console_lines (since w w') else []).

(** ** Sample objects and worlds *)

(** The literal [22.5f]. *)
Definition float_22_5 : float := S754_finite false 11796480 (-19).

(** The literal [-2.5f]. *)
Definition float_minus_2_5 : float := S754_finite true 10485760 (-22).

(** A world with nothing written yet, a clock that advances one second per
    reading, and a file system that lets the log file be opened. *)
Definition sample_world : World :=
  mkWorld [] 0 (fun n => 1793613600 + Z.of_nat n) (fun _ => true).

(** The same world with a file system that refuses to open any file. *)
Definition readonly_world : World :=
  mkWorld [] 0 (fun n => 1793613600 + Z.of_nat n) (fun _ => false).

(** [device5] of [main], once constructed. *)
Definition front_door_lock : SmartDevice :=
  mkSmartDevice "Front Door Lock" "Security Lock" true 85 float_22_5
                "Front Door" true.

(** [device4] of [main], once constructed: never powered on. *)
Definition bedroom_camera : SmartDevice :=
  mkSmartDevice "Bedroom Camera" "Security Camera" false 100 float_20
                "Bedroom" true.

Section Device.

(** Two functions of the C++ library are left open: the formatting of a
    [time_t] as local time ([localtime_s] followed by [put_time] with
    ["%Y-%m-%d %H:%M:%S"]), and [std::to_string(float)]. *)
Variable put_time : Z -> string.
Variable to_string_float : float -> string.

(** *** Logging *)

Definition initLogger (filename : string) : Method unit :=
  ofstream_open filename ;;
  d <- this ;;
  if negb (logFile_is_open d) then
    output (Cerr ("Failed to open log file: " ++ filename ++ endl))
  else ret tt.

Definition getCurrentTimestamp : Method string :=
  now_time <- system_clock_now ;;
  ret (put_time now_time).

Definition log (message : string) : Method unit :=
  _ <- system_clock_now ;;
  timestamp <- getCurrentTimestamp ;;
  d <- this ;;
  (if logFile_is_open d then
     output (FileWrite ("[" ++ timestamp ++ "] " ++ deviceName d ++ ": "
                            ++ message ++ endl))
   else ret tt) ;;
  output (Cout ("[" ++ timestamp ++ "] " ++ deviceName d ++ ": "
                    ++ message ++ endl)).

(** *** Constructors and destructor *)

(** A constructor starts from the members' initial values, the stream
    closed, and runs its body. *)
Definition construct (init : SmartDevice) (body : Method unit)
  : World -> State :=
  fun w => snd (body (init, w)).

Definition SmartDevice_default : Method unit :=
  initLogger "device_log.txt" ;;
  log "Device created with default parameters".

Definition SmartDevice_default_init : SmartDevice :=
  mkSmartDevice "Unknown" "Generic" false 100 float_20 "Not set" false.

Definition SmartDevice_name (name : string) : Method unit :=
  SmartDevice_default ;;
  assign (set_deviceName name) ;;
  log ("Device name set to: " ++ name).

Definition SmartDevice_name_type (name type : string) : Method unit :=
  SmartDevice_name name ;;
  assign (set_deviceType type) ;;
  log ("Device type set to: " ++ type).

Definition SmartDevice_name_type_loc (name type loc : string) : Method unit :=
  SmartDevice_name_type name type ;;
  assign (set_location loc) ;;
  log ("Device location set to: " ++ loc).

Definition SmartDevice_full_init (name type : string) (powered : bool)
    (battery : Z) (temp : float) (loc : string) : SmartDevice :=
  mkSmartDevice name type powered battery temp loc false.

Definition SmartDevice_full : Method unit :=
  initLogger "device_log.txt" ;;
  log "Device fully initialized with custom parameters".

Definition destroy : Method unit :=
  d <- this ;;
  log ("Device " ++ deviceName d ++ " destroyed") ;;
  d <- this ;;
  if logFile_is_open d then assign (set_logFile_is_open false) else ret tt.

(** *** Setters *)

Definition setDeviceName (name : string) : Method unit :=
  assign (set_deviceName name) ;;
  log ("Device name changed to: " ++ name).

Definition setDeviceType (type : string) : Method unit :=
  assign (set_deviceType type) ;;
  log ("Device type changed to: " ++ type).

Definition setPoweredOn (powered : bool) : Method unit :=
  assign (set_isPoweredOn powered) ;;
  log ("Device power state changed to: " ++ (if powered then "ON" else "OFF")).

Definition setBatteryLevel (level : Z) : Method unit :=
  let level := if level <? 0 then 0 else level in
  let level := if level >? 100 then 100 else level in
  assign (set_batteryLevel level) ;;
  log ("Battery level set to: " ++ to_string level ++ "%").

Definition setTemperature (temp : float) : Method unit :=
  assign (set_temperature temp) ;;
  log ("Temperature set to: " ++ to_string_float temp ++ "°C").

Definition setLocation (loc : string) : Method unit :=
  assign (set_location loc) ;;
  log ("Location changed to: " ++ loc).

(** *** Getters *)

Definition getDeviceName (d : SmartDevice) : string := deviceName d.
Definition getDeviceType (d : SmartDevice) : string := deviceType d.
Definition getIsPoweredOn (d : SmartDevice) : bool := isPoweredOn d.
Definition getBatteryLevel (d : SmartDevice) : Z := batteryLevel d.
Definition getTemperature (d : SmartDevice) : float := temperature d.
Definition getLocation (d : SmartDevice) : string := location d.

(** *** Domain operations *)

Definition powerToggle : Method unit :=
  d <- this ;;
  assign (set_isPoweredOn (negb (isPoweredOn d))) ;;
  d <- this ;;
  log ("Device toggled to: " ++ (if isPoweredOn d then "ON" else "OFF")).

Definition chargeBattery (amount : Z) : Method bool :=
  d <- this ;;
  if negb (isPoweredOn d) then
    log "Cannot charge - device is powered off" ;;
    ret false
  else
    let newLevel := int_add (batteryLevel d) amount in
    let newLevel := if newLevel >? 100 then 100 else newLevel in
    let charged := int_sub newLevel (batteryLevel d) in
    assign (set_batteryLevel newLevel) ;;
    d <- this ;;
    log ("Battery charged by " ++ to_string charged ++ "%. New level: "
           ++ to_string (batteryLevel d) ++ "%") ;;
    ret true.

Definition adjustTemperature (delta : float) : Method unit :=
  d <- this ;;
  if negb (isPoweredOn d) then
    log "Cannot adjust temperature - device is powered off"
  else
    let oldTemp := temperature d in
    assign (set_temperature (float_add (temperature d) delta)) ;;
    d <- this ;;
    log ("Temperature adjusted from " ++ to_string_float oldTemp
           ++ "°C to " ++ to_string_float (temperature d) ++ "°C").

Definition getDeviceStatus (d : SmartDevice) : string :=
  let status :=
    "Device: " ++ deviceName d ++ " (" ++ deviceType d ++ ")" ++ endl in
  let status := status ++ ("Location: " ++ location d ++ endl) in
  let status :=
    status ++ ("Power: " ++ (if isPoweredOn d then "ON" else "OFF") ++ endl) in
  let status :=
    status ++ ("Battery: " ++ to_string (batteryLevel d) ++ "%" ++ endl) in
  let status :=
    status
    ++ ("Temperature: " ++ to_string_float (temperature d) ++ "°C") in
  status.

Definition displayInfo : Method unit :=
  d <- this ;;
  output (Cout (getDeviceStatus d ++ endl)).

Definition isLowBattery (d : SmartDevice) : bool := batteryLevel d <? 20.

Definition performDiagnostics : Method unit :=
  log "Starting diagnostics..." ;;
  d <- this ;;
  log ("Checking power: " ++ (if isPoweredOn d then "OK" else "OFF")) ;;
  d <- this ;;
  log ("Checking battery level: " ++ to_string (batteryLevel d) ++ "%") ;;
  d <- this ;;
  (if isLowBattery d then
     log "WARNING: Low battery detected!"
   else
     log "Battery level OK") ;;
  d <- this ;;
  log ("Checking temperature: " ++ to_string_float (temperature d) ++ "°C") ;;
  d <- this ;;
  (if float_lt (temperature d) (float_of_int 0)
      || float_lt (float_of_int 40) (temperature d) then
     log "WARNING: Temperature outside normal operating range!"
   else
     log "Temperature OK") ;;
  log "Diagnostics completed".

(** *** Dispatch *)

Definition call (op : Op) : Method unit :=
  match op with
  | SetDeviceName name => setDeviceName name
  | SetDeviceType type => setDeviceType type
  | SetPoweredOn powered => setPoweredOn powered
  | SetBatteryLevel level => setBatteryLevel level
  | SetTemperature temp => setTemperature temp
  | SetLocation loc => setLocation loc
  | PowerToggle => powerToggle
  | ChargeBattery amount => _ <- chargeBattery amount ;; ret tt
  | AdjustTemperature delta => adjustTemperature delta
  | DisplayInfo => displayInfo
  | PerformDiagnostics => performDiagnostics
  end.

Fixpoint run (ops : list Op) : Method unit :=
  match ops with
  | [] => ret tt
  | op :: rest => call op ;; run rest
  end.

Definition new (c : Ctor) : World -> State :=
  match c with
  | New => construct SmartDevice_default_init SmartDevice_default
  | NewNamed name =>
      construct SmartDevice_default_init (SmartDevice_name name)
  | NewNamedTyped name type =>
      construct SmartDevice_default_init (SmartDevice_name_type name type)
  | NewNamedTypedAt name type loc =>
      construct SmartDevice_default_init
                (SmartDevice_name_type_loc name type loc)
  | NewFull name type powered battery temp loc =>
      construct (SmartDevice_full_init name type powered battery temp loc)
                SmartDevice_full
  end.

(** *** The demonstration program *)

(** [main]: five objects share one world; at [return] they are destroyed in
    the reverse order of their declaration. *)
Definition main (w : World) : Z * World :=
  let s := new New w in
  let device1 := fst s in
  let s := new (NewNamed "Living Room Thermostat") (snd s) in
  let device2 := fst s in
  let s := new (NewNamedTyped "Kitchen Light" "Light Switch") (snd s) in
  let device3 := fst s in
  let s :=
    new (NewNamedTypedAt "Bedroom Camera" "Security Camera" "Bedroom")
        (snd s) in
  let device4 := fst s in
  let s :=
    new (NewFull "Front Door Lock" "Security Lock" true 85 float_22_5
                 "Front Door")
        (snd s) in
  let device5 := fst s in
  let s := snd (setDeviceName "Main Hub" (device1, snd s)) in
  let s := snd (setDeviceType "Control Center" s) in
  let s := snd (setLocation "Living Room" s) in
  let s := snd (setPoweredOn true s) in
  let s := snd (performDiagnostics s) in
  let device1 := fst s in
  let s := snd (powerToggle (device3, snd s)) in
  let device3 := fst s in
  let s := snd (chargeBattery 10 (device5, snd s)) in
  let device5 := fst s in
  let s := snd (adjustTemperature float_minus_2_5 (device4, snd s)) in
  let device4 := fst s in
  let w := emit (Cout (endl ++ "Device Information:" ++ endl)) (snd s) in
  let w := emit (Cout ("-------------------" ++ endl)) w in
  let s := snd (displayInfo (device1, w)) in
  let device1 := fst s in
  let w := emit (Cout (endl ++ getDeviceStatus device5 ++ endl)) (snd s) in
  let w := snd (snd (destroy (device5, w))) in
  let w := snd (snd (destroy (device4, w))) in
  let w := snd (snd (destroy (device3, w))) in
  let w := snd (snd (destroy (device2, w))) in
  let w := snd (snd (destroy (device1, w))) in
  (0, w).

(** *** What one [log] call does, stated on the trace *)

(** The timestamp of the [k]-th log call made from world [w] on: every
    [log] reads the clock twice and formats the second reading. *)
Definition stamp (w : World) (k : nat) : string :=
  put_time (time_source w (clock_reads w + 2 * k + 1)%nat).

(** The writes of one log entry: the sink first, when it is open, then the
    console. *)
Definition entry_events (d : SmartDevice) (timestamp message : string)
  : list Event :=
  (if logFile_is_open d
   then [FileWrite (entry timestamp (deviceName d) message)]
   else [])
  ++ [Cout (entry timestamp (deviceName d) message)].

Definition logged (d : SmartDevice) (message : string) (w : World) : World :=
  {| trace := trace w ++ entry_events d (stamp w 0) message;
     clock_reads := S (S (clock_reads w));
     time_source := time_source w;
     can_open := can_open w |}.

Definition logged_all (d : SmartDevice) (messages : list string) (w : World)
  : World :=
  fold_left (fun w' message => logged d message w') messages w.

(** The world after [initLogger]: a notice on the error stream when the
    file cannot be opened, nothing otherwise. *)
Definition opened (filename : string) (w : World) : World :=
  if can_open w filename then w
  else emit (Cerr ("Failed to open log file: " ++ filename ++ endl)) w.

(** The object a constructor has after its member initialisers and
    [initLogger]. *)
Definition with_sink (w : World) (init : SmartDevice) : SmartDevice :=
  set_logFile_is_open (can_open w "device_log.txt") init.

Definition temperature_out_of_range (d : SmartDevice) : bool :=
  float_lt (temperature d) (float_of_int 0)
  || float_lt (float_of_int 40) (temperature d).

(** The messages of one [performDiagnostics] call, in order. *)
Definition diagnostic_report (d : SmartDevice) : list string :=
  [ "Starting diagnostics...";
    "Checking power: " ++ (if isPoweredOn d then "OK" else "OFF");
    "Checking battery level: " ++ to_string (batteryLevel d) ++ "%";
    if isLowBattery d then "WARNING: Low battery detected!"
    else "Battery level OK";
    "Checking temperature: " ++ to_string_float (temperature d) ++ "°C";
    if temperature_out_of_range d
    then "WARNING: Temperature outside normal operating range!"
    else "Temperature OK";
    "Diagnostics completed" ].

(** A call changed the object into [d'] and wrote exactly the events of one
    log entry, made by [d'] with [message], and nothing else. *)
Definition logs_once {A : Type} (w : World) (r : A * State)
    (d' : SmartDevice) (message : string) : Prop :=
  fst (snd r) = d'
  /\ since w (snd (snd r)) = entry_events d' (stamp w 0) message.

(** The events of consecutive log entries made by [d], the first of them
    being the [k]-th log call after world [w]. *)
Fixpoint events_from (d : SmartDevice) (w : World) (k : nat)
    (messages : list string) : list Event :=
  match messages with
  | [] => []
  | message :: rest =>
      entry_events d (stamp w k) message ++ events_from d w (S k) rest
  end.

(** World [w'] is [w] with more written. *)
Definition extends (w w' : World) : Prop :=
  exists evs, trace w' = (trace w ++ evs)%list.

(** The same world with a file system that lets every file be opened. *)
Definition with_working_sink (w : World) : World :=
  mkWorld (trace w) (clock_reads w) (time_source w) (fun _ => true).

(** Two runs started in worlds [w] and [w_ok], the first of an object whose
    sink could not be opened, the second of the same object with its sink
    open: [s] is the console-only twin of [s_ok]. *)
Definition console_only_twin (w w_ok : World) (s s_ok : State) : Prop :=
  fst s = set_logFile_is_open false (fst s_ok)
  /\ clock_reads (snd s) = clock_reads (snd s_ok)
  /\ time_source (snd s) = time_source (snd s_ok)
  /\ extends w (snd s)
  /\ extends w_ok (snd s_ok)
  /\ console_lines (since w (snd s)) = console_lines (since w_ok (snd s_ok))
  /\ file_lines (since w (snd s)) = []
  /\ error_lines (since w (snd s))
     = ["Failed to open log file: device_log.txt" ++ endl]
  /\ hd_error (since w (snd s))
     = Some (Cerr ("Failed to open log file: device_log.txt" ++ endl)).

(** World [W] is world [w] after [n] more log entries, with [evs] written
    in between. *)
Definition reached (w W : World) (n : nat) (evs : list Event) : Prop :=
  can_open W = can_open w
  /\ time_source W = time_source w
  /\ clock_reads W = (clock_reads w + 2 * n)%nat
  /\ trace W = (trace w ++ evs)%list.

(** The console entries of a constructor, in order: the independent table
    the constructors are checked against. *)
Definition ctor_console_entries (c : Ctor) (w : World) : list string :=
  let created :=
    entry (stamp w 0) "Unknown" "Device created with default parameters" in
  match c with
  | New => [created]
  | NewNamed name =>
      [created; entry (stamp w 1) name ("Device name set to: " ++ name)]
  | NewNamedTyped name type =>
      [created;
       entry (stamp w 1) name ("Device name set to: " ++ name);
       entry (stamp w 2) name ("Device type set to: " ++ type)]
  | NewNamedTypedAt name type loc =>
      [created;
       entry (stamp w 1) name ("Device name set to: " ++ name);
       entry (stamp w 2) name ("Device type set to: " ++ type);
       entry (stamp w 3) name ("Device location set to: " ++ loc)]
  | NewFull name _ _ _ _ _ =>
      [entry (stamp w 0) name
             "Device fully initialized with custom parameters"]
  end.

(** What one call does to an object that has no sink: the object it
    leaves, and what it writes, every write being to the console.  [w] is
    the world the call starts in. *)
Definition console_only_outcome (op : Op) (d : SmartDevice) (w : World)
  : SmartDevice * list Event :=
  let say (k : nat) (name message : string) :=
    Cout (entry (stamp w k) name message) in
  match op with
  | SetDeviceName name =>
      (set_deviceName name d,
       [say 0%nat name ("Device name changed to: " ++ name)])
  | SetDeviceType type =>
      (set_deviceType type d,
       [say 0%nat (deviceName d) ("Device type changed to: " ++ type)])
  | SetPoweredOn powered =>
      (set_isPoweredOn powered d,
       [say 0%nat (deviceName d)
            ("Device power state changed to: "
               ++ (if powered then "ON" else "OFF"))])
  | SetBatteryLevel level =>
      (set_batteryLevel (Z.min 100 (Z.max 0 level)) d,
       [say 0%nat (deviceName d)
            ("Battery level set to: "
               ++ to_string (Z.min 100 (Z.max 0 level)) ++ "%")])
  | SetTemperature temp =>
      (set_temperature temp d,
       [say 0%nat (deviceName d)
            ("Temperature set to: " ++ to_string_float temp ++ "°C")])
  | SetLocation loc =>
      (set_location loc d,
       [say 0%nat (deviceName d) ("Location changed to: " ++ loc)])
  | PowerToggle =>
      (set_isPoweredOn (negb (isPoweredOn d)) d,
       [say 0%nat (deviceName d)
            ("Device toggled to: "
               ++ (if isPoweredOn d then "OFF" else "ON"))])
  | ChargeBattery amount =>
      if isPoweredOn d then
        let newLevel :=
          if int_add (batteryLevel d) amount >? 100 then 100
          else int_add (batteryLevel d) amount in
        (set_batteryLevel newLevel d,
         [say 0%nat (deviceName d)
              ("Battery charged by "
                 ++ to_string (int_sub newLevel (batteryLevel d))
                 ++ "%. New level: " ++ to_string newLevel ++ "%")])
      else
        (d, [say 0%nat (deviceName d)
                 "Cannot charge - device is powered off"])
  | AdjustTemperature delta =>
      if isPoweredOn d then
        (set_temperature (float_add (temperature d) delta) d,
         [say 0%nat (deviceName d)
              ("Temperature adjusted from "
                 ++ to_string_float (temperature d) ++ "°C to "
                 ++ to_string_float (float_add (temperature d) delta)
                 ++ "°C")])
      else
        (d, [say 0%nat (deviceName d)
                 "Cannot adjust temperature - device is powered off"])
  | DisplayInfo => (d, [Cout (getDeviceStatus d ++ endl)])
  | PerformDiagnostics =>
      (d,
       [say 0%nat (deviceName d) "Starting diagnostics...";
        say 1%nat (deviceName d)
            ("Checking power: " ++ (if isPoweredOn d then "OK" else "OFF"));
        say 2%nat (deviceName d)
            ("Checking battery level: " ++ to_string (batteryLevel d)
               ++ "%");
        say 3%nat (deviceName d)
            (if batteryLevel d <? 20 then "WARNING: Low battery detected!"
             else "Battery level OK");
        say 4%nat (deviceName d)
            ("Checking temperature: " ++ to_string_float (temperature d)
               ++ "°C");
        say 5%nat (deviceName d)
            (if float_lt (temperature d) (float_of_int 0)
                || float_lt (float_of_int 40) (temperature d)
             then "WARNING: Temperature outside normal operating range!"
             else "Temperature OK");
        say 6%nat (deviceName d) "Diagnostics completed"])
  end.

(** ** Properties *)

Lemma log_run (message : string) (d : SmartDevice) (w : World) :
  log message (d, w) = (tt, (d, logged d message w)).
Proof.
  unfold log, logged, entry_events, entry, stamp, getCurrentTimestamp, bind,
    system_clock_now, this, output, emit, ret.
  cbn [fst snd trace clock_reads time_source can_open].
  replace (clock_reads w + 2 * 0 + 1)%nat with (S (clock_reads w)) by lia.
  destruct (logFile_is_open d);
    cbn [fst snd trace clock_reads time_source can_open].
  - rewrite <- app_assoc. reflexivity.
  - reflexivity.
Qed.

Lemma bind_run {A B : Type} (m : Method A) (k : A -> Method B)
    (s s' : State) (a : A) :
  m s = (a, s') -> bind m k s = k a s'.
Proof. intros H. unfold bind. rewrite H. reflexivity. Qed.

Lemma bind_log {B : Type} (message : string) (k : unit -> Method B)
    (d : SmartDevice) (w : World) :
  bind (log message) k (d, w) = k tt (d, logged d message w).
Proof. apply bind_run, log_run. Qed.

Lemma bind_assign {B : Type} (f : SmartDevice -> SmartDevice)
    (k : unit -> Method B) (d : SmartDevice) (w : World) :
  bind (assign f) k (d, w) = k tt (f d, w).
Proof. reflexivity. Qed.

Lemma bind_this {B : Type} (k : SmartDevice -> Method B)
    (d : SmartDevice) (w : World) :
  bind this k (d, w) = k d (d, w).
Proof. reflexivity. Qed.

Lemma bind_ret {A B : Type} (a : A) (k : A -> Method B) (s : State) :
  bind (ret a) k s = k a s.
Proof. reflexivity. Qed.

Lemma bind_output {B : Type} (e : Event) (k : unit -> Method B)
    (d : SmartDevice) (w : World) :
  bind (output e) k (d, w) = k tt (d, emit e w).
Proof. reflexivity. Qed.

Lemma bind_bind {A B C : Type} (m : Method A) (k : A -> Method B)
    (k' : B -> Method C) (s : State) :
  bind (bind m k) k' s = bind m (fun a => bind (k a) k') s.
Proof. unfold bind. destruct (m s) as [a s']. reflexivity. Qed.

Lemma ret_run {A : Type} (a : A) (s : State) : ret a s = (a, s).
Proof. reflexivity. Qed.

Create Rewrite HintDb method.
#[local] Hint Rewrite @bind_bind @bind_log @bind_assign @bind_this @bind_ret
  @bind_output log_run @ret_run : method.

Ltac step := autorewrite with method; try reflexivity.

(** *** The setters, one equation each *)

Lemma setDeviceName_run name d w :
  setDeviceName name (d, w)
  = (tt, (set_deviceName name d,
          logged (set_deviceName name d)
                 ("Device name changed to: " ++ name) w)).
Proof. unfold setDeviceName. step. Qed.

Lemma setDeviceType_run type d w :
  setDeviceType type (d, w)
  = (tt, (set_deviceType type d,
          logged (set_deviceType type d)
                 ("Device type changed to: " ++ type) w)).
Proof. unfold setDeviceType. step. Qed.

Lemma setPoweredOn_run powered d w :
  setPoweredOn powered (d, w)
  = (tt, (set_isPoweredOn powered d,
          logged (set_isPoweredOn powered d)
                 ("Device power state changed to: "
                    ++ (if powered then "ON" else "OFF")) w)).
Proof. unfold setPoweredOn. step. Qed.

Lemma setBatteryLevel_run level d w :
  setBatteryLevel level (d, w)
  = (tt, (set_batteryLevel (Z.min 100 (Z.max 0 level)) d,
          logged (set_batteryLevel (Z.min 100 (Z.max 0 level)) d)
                 ("Battery level set to: "
                    ++ to_string (Z.min 100 (Z.max 0 level)) ++ "%") w)).
Proof.
  unfold setBatteryLevel.
  assert (E : (if (if level <? 0 then 0 else level) >? 100 then 100
               else if level <? 0 then 0 else level)
              = Z.min 100 (Z.max 0 level)).
  { destruct (Z.ltb_spec level 0) as [Hl | Hl].
    - rewrite Z.max_l, Z.min_r by lia. reflexivity.
    - rewrite Z.max_r by lia.
      destruct (Z.gtb_spec level 100) as [Hh | Hh].
      + rewrite Z.min_l by lia. reflexivity.
      + rewrite Z.min_r by lia. reflexivity. }
  rewrite E. step.
Qed.

Lemma setTemperature_run temp d w :
  setTemperature temp (d, w)
  = (tt, (set_temperature temp d,
          logged (set_temperature temp d)
                 ("Temperature set to: " ++ to_string_float temp ++ "°C") w)).
Proof. unfold setTemperature. step. Qed.

Lemma setLocation_run loc d w :
  setLocation loc (d, w)
  = (tt, (set_location loc d,
          logged (set_location loc d) ("Location changed to: " ++ loc) w)).
Proof. unfold setLocation. step. Qed.

Lemma powerToggle_run d w :
  powerToggle (d, w)
  = (tt, (set_isPoweredOn (negb (isPoweredOn d)) d,
          logged (set_isPoweredOn (negb (isPoweredOn d)) d)
                 ("Device toggled to: "
                    ++ (if negb (isPoweredOn d) then "ON" else "OFF")) w)).
Proof. unfold powerToggle. step. Qed.

(** *** The two power-gated operations *)

Lemma chargeBattery_off amount d w :
  isPoweredOn d = false ->
  chargeBattery amount (d, w)
  = (false, (d, logged d "Cannot charge - device is powered off" w)).
Proof. intros H. unfold chargeBattery. step. rewrite H. cbn [negb]. step. Qed.

Lemma chargeBattery_on amount d w :
  isPoweredOn d = true ->
  let sum := int_add (batteryLevel d) amount in
  let newLevel := if sum >? 100 then 100 else sum in
  chargeBattery amount (d, w)
  = (true,
     (set_batteryLevel newLevel d,
      logged (set_batteryLevel newLevel d)
             ("Battery charged by "
                ++ to_string (int_sub newLevel (batteryLevel d))
                ++ "%. New level: " ++ to_string newLevel ++ "%") w)).
Proof. intros H. unfold chargeBattery. step. rewrite H. cbn [negb]. step. Qed.

Lemma adjustTemperature_off delta d w :
  isPoweredOn d = false ->
  adjustTemperature delta (d, w)
  = (tt, (d, logged d "Cannot adjust temperature - device is powered off" w)).
Proof. intros H. unfold adjustTemperature. step. rewrite H. cbn [negb]. step. Qed.

Lemma adjustTemperature_on delta d w :
  isPoweredOn d = true ->
  let d' := set_temperature (float_add (temperature d) delta) d in
  adjustTemperature delta (d, w)
  = (tt,
     (d',
      logged d' ("Temperature adjusted from " ++ to_string_float (temperature d)
                   ++ "°C to " ++ to_string_float (temperature d') ++ "°C") w)).
Proof. intros H. unfold adjustTemperature. step. rewrite H. cbn [negb]. step. Qed.

Lemma wrap_int_id z : INT_MIN <= z <= INT_MAX -> wrap_int z = z.
Proof.
  unfold INT_MIN, INT_MAX, wrap_int. intros H.
  rewrite Z.mod_small by lia. lia.
Qed.

Lemma since_app (w w' : World) (evs : list Event) :
  trace w' = (trace w ++ evs)%list -> since w w' = evs.
Proof.
  intros H. unfold since. rewrite H, skipn_app, skipn_all, Nat.sub_diag.
  reflexivity.
Qed.

Lemma since_logged d message w :
  since w (logged d message w) = entry_events d (stamp w 0) message.
Proof. apply since_app. reflexivity. Qed.

Lemma console_lines_app evs evs' :
  console_lines (evs ++ evs') = (console_lines evs ++ console_lines evs')%list.
Proof. unfold console_lines. apply flat_map_app. Qed.

Lemma file_lines_app evs evs' :
  file_lines (evs ++ evs') = (file_lines evs ++ file_lines evs')%list.
Proof. unfold file_lines. apply flat_map_app. Qed.

Lemma error_lines_app evs evs' :
  error_lines (evs ++ evs') = (error_lines evs ++ error_lines evs')%list.
Proof. unfold error_lines. apply flat_map_app. Qed.

Lemma console_lines_entry d timestamp message :
  console_lines (entry_events d timestamp message)
  = [entry timestamp (deviceName d) message].
Proof. unfold entry_events. destruct (logFile_is_open d); reflexivity. Qed.

Lemma file_lines_entry d timestamp message :
  file_lines (entry_events d timestamp message)
  = if logFile_is_open d then [entry timestamp (deviceName d) message] else [].
Proof. unfold entry_events. destruct (logFile_is_open d); reflexivity. Qed.

Lemma error_lines_entry d timestamp message :
  error_lines (entry_events d timestamp message) = [].
Proof. unfold entry_events. destruct (logFile_is_open d); reflexivity. Qed.

Lemma stamp_logged d message w k :
  stamp (logged d message w) k = stamp w (S k).
Proof.
  unfold stamp, logged. cbn [clock_reads time_source].
  f_equal. f_equal. lia.
Qed.

Lemma stamp_opened filename w k : stamp (opened filename w) k = stamp w k.
Proof. unfold stamp, opened. destruct (can_open w filename); reflexivity. Qed.

Lemma initLogger_run filename d w :
  initLogger filename (d, w)
  = (tt, (set_logFile_is_open (can_open w filename) d, opened filename w)).
Proof.
  unfold initLogger, ofstream_open, opened, bind, this, output, ret.
  cbn [fst snd logFile_is_open set_logFile_is_open].
  destruct (can_open w filename); reflexivity.
Qed.

Lemma bind_initLogger {B : Type} filename (k : unit -> Method B) d w :
  bind (initLogger filename) k (d, w)
  = k tt (set_logFile_is_open (can_open w filename) d, opened filename w).
Proof. apply bind_run, initLogger_run. Qed.

#[local] Hint Rewrite @bind_initLogger initLogger_run : method.

Lemma performDiagnostics_run d w :
  performDiagnostics (d, w) = (tt, (d, logged_all d (diagnostic_report d) w)).
Proof.
  unfold performDiagnostics, diagnostic_report, temperature_out_of_range.
  step.
  destruct (isLowBattery d); step;
    destruct (float_lt (temperature d) (float_of_int 0)
              || float_lt (float_of_int 40) (temperature d)); step.
Qed.

Lemma displayInfo_run d w :
  displayInfo (d, w) = (tt, (d, emit (Cout (getDeviceStatus d ++ endl)) w)).
Proof. unfold displayInfo. step. Qed.

(** *** The constructors, one equation each *)

Lemma new_default w :
  new New w
  = (with_sink w SmartDevice_default_init,
     logged (with_sink w SmartDevice_default_init)
            "Device created with default parameters"
            (opened "device_log.txt" w)).
Proof.
  unfold new, construct, SmartDevice_default, with_sink. step.
Qed.

Lemma new_named name w :
  new (NewNamed name) w
  = (set_deviceName name (fst (new New w)),
     logged (set_deviceName name (fst (new New w)))
            ("Device name set to: " ++ name) (snd (new New w))).
Proof.
  rewrite new_default.
  unfold new, construct, SmartDevice_name, SmartDevice_default, with_sink.
  step.
Qed.

Lemma new_named_typed name type w :
  new (NewNamedTyped name type) w
  = (set_deviceType type (fst (new (NewNamed name) w)),
     logged (set_deviceType type (fst (new (NewNamed name) w)))
            ("Device type set to: " ++ type) (snd (new (NewNamed name) w))).
Proof.
  rewrite new_named, new_default.
  unfold new, construct, SmartDevice_name_type, SmartDevice_name,
    SmartDevice_default, with_sink.
  step.
Qed.

Lemma new_named_typed_at name type loc w :
  new (NewNamedTypedAt name type loc) w
  = (set_location loc (fst (new (NewNamedTyped name type) w)),
     logged (set_location loc (fst (new (NewNamedTyped name type) w)))
            ("Device location set to: " ++ loc)
            (snd (new (NewNamedTyped name type) w))).
Proof.
  rewrite new_named_typed, new_named, new_default.
  unfold new, construct, SmartDevice_name_type_loc, SmartDevice_name_type,
    SmartDevice_name, SmartDevice_default, with_sink.
  step.
Qed.

Lemma new_full name type powered battery temp loc w :
  new (NewFull name type powered battery temp loc) w
  = (with_sink w (SmartDevice_full_init name type powered battery temp loc),
     logged
       (with_sink w (SmartDevice_full_init name type powered battery temp loc))
       "Device fully initialized with custom parameters"
       (opened "device_log.txt" w)).
Proof.
  unfold new, construct, SmartDevice_full, with_sink. step.
Qed.

(** *** Traces of several entries *)

Lemma extends_refl w : extends w w.
Proof. exists []. symmetry. apply app_nil_r. Qed.

Lemma extends_emit w w' e : extends w w' -> extends w (emit e w').
Proof.
  intros [evs H]. exists (evs ++ [e])%list. cbn [emit trace].
  rewrite H, app_assoc. reflexivity.
Qed.

Lemma extends_opened w w' filename :
  extends w w' -> extends w (opened filename w').
Proof.
  intros H. unfold opened. destruct (can_open w' filename); [exact H |].
  apply extends_emit, H.
Qed.

Lemma extends_logged w w' d message :
  extends w w' -> extends w (logged d message w').
Proof.
  intros [evs H]. exists (evs ++ entry_events d (stamp w' 0) message)%list.
  cbn [logged trace]. rewrite H, app_assoc. reflexivity.
Qed.

Lemma since_extended w w' :
  extends w w' ->
  trace w' = (trace w ++ since w w')%list.
Proof.
  intros [evs' H]. rewrite (since_app w w' evs' H). exact H.
Qed.

Lemma since_logged_after w w' d message :
  extends w w' ->
  since w (logged d message w')
  = (since w w' ++ entry_events d (stamp w' 0) message)%list.
Proof.
  intros H. apply since_app. cbn [logged trace].
  rewrite (since_extended w w' H) at 1. rewrite app_assoc. reflexivity.
Qed.

Lemma since_emit_after w w' e :
  extends w w' -> since w (emit e w') = (since w w' ++ [e])%list.
Proof.
  intros H. apply since_app. cbn [emit trace].
  rewrite (since_extended w w' H) at 1. rewrite app_assoc. reflexivity.
Qed.

Lemma since_self w : since w w = [].
Proof. apply since_app. symmetry. apply app_nil_r. Qed.

Lemma since_opened w filename :
  since w (opened filename w)
  = if can_open w filename then []
    else [Cerr ("Failed to open log file: " ++ filename ++ endl)].
Proof.
  unfold opened. destruct (can_open w filename).
  - apply since_self.
  - apply since_app. reflexivity.
Qed.

Lemma events_from_logged d d' message w k messages :
  events_from d (logged d' message w) k messages
  = events_from d w (S k) messages.
Proof.
  revert k. induction messages as [| m rest IH]; intros k; cbn [events_from].
  - reflexivity.
  - rewrite stamp_logged, IH. reflexivity.
Qed.

Lemma trace_logged_all d messages w :
  trace (logged_all d messages w)
  = (trace w ++ events_from d w 0 messages)%list.
Proof.
  unfold logged_all. revert w.
  induction messages as [| m rest IH]; intros w; cbn [fold_left events_from].
  - symmetry. apply app_nil_r.
  - rewrite IH, events_from_logged. cbn [logged trace].
    rewrite <- app_assoc. reflexivity.
Qed.

Lemma console_lines_events_from d w k messages :
  length (console_lines (events_from d w k messages)) = length messages.
Proof.
  revert k. induction messages as [| m rest IH]; intros k; cbn [events_from].
  - reflexivity.
  - rewrite console_lines_app, console_lines_entry, length_app, IH.
    reflexivity.
Qed.

(** *** Charging *)

(** C4: on a device that is powered off, [chargeBattery] returns false for
    every amount, leaves every member of the object as it was, and emits one
    log entry that gives the reason. *)
Theorem chargeBattery_powered_off amount d w :
  isPoweredOn d = false ->
  chargeBattery amount (d, w)
  = (false, (d, logged d "Cannot charge - device is powered off" w))
  /\ console_lines (since w (snd (snd (chargeBattery amount (d, w)))))
     = [entry (stamp w 0) (deviceName d)
              "Cannot charge - device is powered off"]
  /\ getBatteryLevel (fst (snd (chargeBattery amount (d, w))))
     = getBatteryLevel d.
Proof.
  intros H. rewrite (chargeBattery_off amount d w H). cbn [fst snd].
  rewrite since_logged, console_lines_entry. auto.
Qed.

(** C3 (amended): on a powered device with battery level [old] in [0,100],
    for every amount >= 0 whose sum with [old] still fits an [int],
    [chargeBattery] returns true, stores [min 100 (old + amount)], and its
    log entry reports the difference between the stored level and [old]
    (not the requested amount) together with the stored level. *)
Theorem chargeBattery_powered_nonneg amount d w :
  isPoweredOn d = true ->
  0 <= amount ->
  in_percent_range (batteryLevel d) ->
  batteryLevel d + amount <= INT_MAX ->
  let newLevel := Z.min 100 (batteryLevel d + amount) in
  chargeBattery amount (d, w)
  = (true,
     (set_batteryLevel newLevel d,
      logged (set_batteryLevel newLevel d)
             ("Battery charged by " ++ to_string (newLevel - batteryLevel d)
                ++ "%. New level: " ++ to_string newLevel ++ "%") w)).
Proof.
  intros Hon Ha Hb Hfit newLevel. unfold in_percent_range, INT_MAX in *.
  rewrite (chargeBattery_on amount d w Hon). cbv zeta.
  unfold int_add. rewrite wrap_int_id by (unfold INT_MIN, INT_MAX; lia).
  assert (E : (if batteryLevel d + amount >? 100 then 100
               else batteryLevel d + amount) = newLevel).
  { subst newLevel. destruct (Z.gtb_spec (batteryLevel d + amount) 100).
    - rewrite Z.min_l by lia. reflexivity.
    - rewrite Z.min_r by lia. reflexivity. }
  rewrite E. unfold int_sub.
  rewrite wrap_int_id by (unfold INT_MIN, INT_MAX; subst newLevel; lia).
  reflexivity.
Qed.

(** C9 (amended): on a powered device [chargeBattery] returns true for
    every amount, negative ones included, and for every amount such that
    [old + amount] is at most 100 and still fits an [int] it stores
    [old + amount]: there is no lower bound, so the stored level is below 0
    as soon as the sum is. *)
Theorem chargeBattery_no_lower_bound amount d w :
  isPoweredOn d = true ->
  fst (chargeBattery amount (d, w)) = true
  /\ (INT_MIN <= batteryLevel d + amount <= 100 ->
      getBatteryLevel (fst (snd (chargeBattery amount (d, w))))
      = batteryLevel d + amount
      /\ (batteryLevel d + amount < 0 ->
          getBatteryLevel (fst (snd (chargeBattery amount (d, w)))) < 0)).
Proof.
  intros Hon. rewrite (chargeBattery_on amount d w Hon). cbv zeta.
  cbn [fst snd]. split; [reflexivity |]. intros Hsum.
  unfold getBatteryLevel, set_batteryLevel.
  cbn [batteryLevel]. unfold int_add.
  rewrite wrap_int_id by (unfold INT_MIN, INT_MAX in *; lia).
  destruct (Z.gtb_spec (batteryLevel d + amount) 100); [lia |].
  auto.
Qed.

(** *** Temperature *)

(** C5: [adjustTemperature] on a device that is powered off changes no
    member, the temperature in particular, and logs the reason; on a
    powered device it stores the float sum of the old temperature and the
    delta, whatever its sign, with no clamping. *)
Theorem adjustTemperature_gated delta d w :
  (isPoweredOn d = false ->
   adjustTemperature delta (d, w)
   = (tt, (d, logged d "Cannot adjust temperature - device is powered off" w)))
  /\ (isPoweredOn d = true ->
      getTemperature (fst (snd (adjustTemperature delta (d, w))))
      = float_add (temperature d) delta
      /\ adjustTemperature delta (d, w)
         = (tt,
            (set_temperature (float_add (temperature d) delta) d,
             logged (set_temperature (float_add (temperature d) delta) d)
                    ("Temperature adjusted from "
                       ++ to_string_float (temperature d) ++ "°C to "
                       ++ to_string_float (float_add (temperature d) delta)
                       ++ "°C") w))).
Proof.
  split; intros H.
  - apply adjustTemperature_off, H.
  - rewrite (adjustTemperature_on delta d w H). cbv zeta. split; reflexivity.
Qed.

(** *** Logging of state changes *)

(** C7 (amended): each setter, [powerToggle], and the state-changing branch
    of [chargeBattery] and of [adjustTemperature] writes exactly one log
    entry that describes the change: the line
    [[<timestamp>] <device-name>: <message>] goes to the sink when the
    object has it open, and then to the console; an object whose sink could
    not be opened writes the line to the console only. *)
Theorem state_changes_log_exactly_once d w :
  (forall name,
     logs_once w (setDeviceName name (d, w)) (set_deviceName name d)
               ("Device name changed to: " ++ name))
  /\ (forall type,
        logs_once w (setDeviceType type (d, w)) (set_deviceType type d)
                  ("Device type changed to: " ++ type))
  /\ (forall loc,
        logs_once w (setLocation loc (d, w)) (set_location loc d)
                  ("Location changed to: " ++ loc))
  /\ (forall powered,
        logs_once w (setPoweredOn powered (d, w)) (set_isPoweredOn powered d)
                  ("Device power state changed to: "
                     ++ (if powered then "ON" else "OFF")))
  /\ (forall level,
        logs_once w (setBatteryLevel level (d, w))
                  (set_batteryLevel (Z.min 100 (Z.max 0 level)) d)
                  ("Battery level set to: "
                     ++ to_string (Z.min 100 (Z.max 0 level)) ++ "%"))
  /\ (forall temp,
        logs_once w (setTemperature temp (d, w)) (set_temperature temp d)
                  ("Temperature set to: " ++ to_string_float temp ++ "°C"))
  /\ logs_once w (powerToggle (d, w))
               (set_isPoweredOn (negb (isPoweredOn d)) d)
               ("Device toggled to: "
                  ++ (if negb (isPoweredOn d) then "ON" else "OFF"))
  /\ (forall amount,
        isPoweredOn d = true ->
        let newLevel :=
          if int_add (batteryLevel d) amount >? 100 then 100
          else int_add (batteryLevel d) amount in
        logs_once w (chargeBattery amount (d, w))
                  (set_batteryLevel newLevel d)
                  ("Battery charged by "
                     ++ to_string (int_sub newLevel (batteryLevel d))
                     ++ "%. New level: " ++ to_string newLevel ++ "%"))
  /\ (forall delta,
        isPoweredOn d = true ->
        logs_once w (adjustTemperature delta (d, w))
                  (set_temperature (float_add (temperature d) delta) d)
                  ("Temperature adjusted from "
                     ++ to_string_float (temperature d) ++ "°C to "
                     ++ to_string_float (float_add (temperature d) delta)
                     ++ "°C")).
Proof.
  repeat match goal with |- _ /\ _ => split end; intros; unfold logs_once.
  - rewrite setDeviceName_run. split; [reflexivity | apply since_logged].
  - rewrite setDeviceType_run. split; [reflexivity | apply since_logged].
  - rewrite setLocation_run. split; [reflexivity | apply since_logged].
  - rewrite setPoweredOn_run. split; [reflexivity | apply since_logged].
  - rewrite setBatteryLevel_run. split; [reflexivity | apply since_logged].
  - rewrite setTemperature_run. split; [reflexivity | apply since_logged].
  - rewrite powerToggle_run. split; [reflexivity | apply since_logged].
  - rewrite chargeBattery_on by assumption.
    split; [reflexivity | apply since_logged].
  - rewrite adjustTemperature_on by assumption.
    split; [reflexivity | apply since_logged].
Qed.

(** *** Diagnostics *)

(** C6 (amended): every call to [performDiagnostics] emits exactly 7 log
    entries, whatever the state: the fourth is the low-battery warning iff
    [isLowBattery()] holds and "Battery level OK" otherwise, the sixth is
    the temperature warning iff the temperature is below 0 or above 40 and
    "Temperature OK" otherwise; no member of the object changes. *)
Theorem performDiagnostics_seven_entries d w :
  fst (snd (performDiagnostics (d, w))) = d
  /\ since w (snd (snd (performDiagnostics (d, w))))
     = events_from d w 0 (diagnostic_report d)
  /\ length (console_lines (since w (snd (snd (performDiagnostics (d, w))))))
     = 7%nat
  /\ nth_error (diagnostic_report d) 3
     = Some (if isLowBattery d then "WARNING: Low battery detected!"
             else "Battery level OK")
  /\ nth_error (diagnostic_report d) 5
     = Some (if float_lt (temperature d) (float_of_int 0)
                || float_lt (float_of_int 40) (temperature d)
             then "WARNING: Temperature outside normal operating range!"
             else "Temperature OK")
  /\ (In "WARNING: Low battery detected!" (diagnostic_report d)
      <-> isLowBattery d = true)
  /\ (In "WARNING: Temperature outside normal operating range!"
         (diagnostic_report d)
      <-> float_lt (temperature d) (float_of_int 0)
          || float_lt (float_of_int 40) (temperature d) = true).
Proof.
  rewrite performDiagnostics_run. cbn [fst snd].
  assert (E : since w (logged_all d (diagnostic_report d) w)
              = events_from d w 0 (diagnostic_report d))
    by apply since_app, trace_logged_all.
  rewrite E, console_lines_events_from.
  repeat match goal with |- _ /\ _ => split end; try reflexivity.
  - unfold diagnostic_report, temperature_out_of_range.
    destruct (isLowBattery d),
      (float_lt (temperature d) (float_of_int 0)
       || float_lt (float_of_int 40) (temperature d));
      cbn [In append]; intuition (try discriminate; auto).
  - unfold diagnostic_report, temperature_out_of_range.
    destruct (isLowBattery d),
      (float_lt (temperature d) (float_of_int 0)
       || float_lt (float_of_int 40) (temperature d));
      cbn [In append]; intuition (try discriminate; auto).
Qed.

(** *** Construction *)

Lemma new_full_fields name type powered battery temp loc w :
  fields (fst (new (NewFull name type powered battery temp loc) w))
  = (name, type, powered, battery, temp, loc).
Proof. rewrite new_full. reflexivity. Qed.

Lemma setBatteryLevel_in_range level d w :
  in_percent_range (getBatteryLevel (fst (snd (setBatteryLevel level (d, w))))).
Proof.
  rewrite setBatteryLevel_run. unfold in_percent_range. cbn. lia.
Qed.

(** C2 (violated by the code): the fully-specified constructor called with
    ("X", "Y", true, 150, 22.5, "Z") stores the battery value 150 as given,
    so [getBatteryLevel()] is 150, not 100; the other getters return the
    supplied values. *)
Theorem full_constructor_stores_battery_as_given w :
  let d := fst (new (NewFull "X" "Y" true 150 float_22_5 "Z") w) in
  getBatteryLevel d = 150
  /\ getBatteryLevel d <> 100
  /\ getDeviceName d = "X"
  /\ getDeviceType d = "Y"
  /\ getIsPoweredOn d = true
  /\ getTemperature d = float_22_5
  /\ getLocation d = "Z".
Proof.
  cbv zeta. rewrite new_full. cbn.
  repeat split; try reflexivity. discriminate.
Qed.

(** C1 (violated by the code): the battery level does not stay in
    [0, 100].  The fully-specified constructor stores a battery argument of
    150 unclamped, and [chargeBattery] with a negative amount takes a
    freshly constructed default device, at level 100, below 0. *)
Theorem battery_level_leaves_percent_range w :
  ~ in_percent_range
      (getBatteryLevel (fst (new (NewFull "X" "Y" true 150 float_22_5 "Z") w)))
  /\ in_percent_range (getBatteryLevel (fst (new New w)))
  /\ ~ in_percent_range
         (getBatteryLevel
            (fst (snd (run [SetPoweredOn true; ChargeBattery (-150)]
                           (new New w))))).
Proof.
  rewrite new_full, new_default. unfold in_percent_range.
  repeat split.
  - cbn. lia.
  - cbn. lia.
  - cbn. lia.
  - cbn [run call]. unfold setPoweredOn, chargeBattery. step.
    cbn [isPoweredOn set_isPoweredOn negb]. step.
    cbn. lia.
Qed.

(** C10: in each delegating constructor the entry "Device created with
    default parameters" is logged under the name "Unknown", because the
    delegated default constructor logs before the supplied name is
    assigned; the entries that follow, one per supplied field, carry the
    supplied name. *)
Theorem delegated_creation_entry_names_Unknown w :
  let created :=
    entry (stamp w 0) "Unknown" "Device created with default parameters" in
  let to_sink (lines : list string) :=
    if can_open w "device_log.txt" then lines else [] in
  (forall name,
     let evs := since w (snd (new (NewNamed name) w)) in
     let lines :=
       [created; entry (stamp w 1) name ("Device name set to: " ++ name)] in
     console_lines evs = lines /\ file_lines evs = to_sink lines)
  /\ (forall name type,
        let evs := since w (snd (new (NewNamedTyped name type) w)) in
        let lines :=
          [created;
           entry (stamp w 1) name ("Device name set to: " ++ name);
           entry (stamp w 2) name ("Device type set to: " ++ type)] in
        console_lines evs = lines /\ file_lines evs = to_sink lines)
  /\ (forall name type loc,
        let evs := since w (snd (new (NewNamedTypedAt name type loc) w)) in
        let lines :=
          [created;
           entry (stamp w 1) name ("Device name set to: " ++ name);
           entry (stamp w 2) name ("Device type set to: " ++ type);
           entry (stamp w 3) name ("Device location set to: " ++ loc)] in
        console_lines evs = lines /\ file_lines evs = to_sink lines).
Proof.
  cbv zeta.
  repeat match goal with |- _ /\ _ => split | |- forall _, _ => intro end;
    rewrite ?new_named_typed_at, ?new_named_typed, ?new_named, ?new_default;
    cbn [fst snd];
    rewrite !since_logged_after
      by (repeat apply extends_logged; apply extends_opened, extends_refl);
    rewrite since_opened;
    rewrite ?console_lines_app, ?file_lines_app, ?console_lines_entry,
      ?file_lines_entry, ?stamp_logged, ?stamp_opened;
    unfold with_sink;
    cbn [deviceName logFile_is_open set_deviceName set_deviceType set_location
         set_logFile_is_open SmartDevice_default_init];
    destruct (can_open w "device_log.txt"); reflexivity.
Qed.

(** *** Degraded operation without a sink *)

Lemma hd_error_app {A : Type} (l l' : list A) (a : A) :
  hd_error l = Some a -> hd_error (l ++ l') = Some a.
Proof. destruct l; [discriminate | intros H; exact H]. Qed.

Lemma twin_logged w w_ok s s_ok d' message :
  console_only_twin w w_ok s s_ok ->
  console_only_twin w w_ok
    (set_logFile_is_open false d',
     logged (set_logFile_is_open false d') message (snd s))
    (d', logged d' message (snd s_ok)).
Proof.
  intros (_ & Hc & Ht & He & Heo & Hcon & Hfile & Herr & Hhd).
  unfold console_only_twin. cbn [fst snd].
  rewrite !since_logged_after by assumption.
  rewrite !console_lines_app, !console_lines_entry, file_lines_app,
    file_lines_entry, error_lines_app, error_lines_entry.
  repeat split.
  - cbn [logged clock_reads]. rewrite Hc. reflexivity.
  - exact Ht.
  - apply extends_logged, He.
  - apply extends_logged, Heo.
  - rewrite Hcon. unfold stamp. rewrite Hc, Ht. reflexivity.
  - rewrite Hfile. reflexivity.
  - rewrite Herr. reflexivity.
  - apply hd_error_app, Hhd.
Qed.

Lemma twin_logged_all w w_ok d' messages s s_ok :
  console_only_twin w w_ok s s_ok ->
  fst s_ok = d' ->
  console_only_twin w w_ok
    (set_logFile_is_open false d',
     logged_all (set_logFile_is_open false d') messages (snd s))
    (d', logged_all d' messages (snd s_ok)).
Proof.
  unfold logged_all. revert s s_ok.
  induction messages as [| m rest IH]; intros [d w1] [d_ok w1_ok] H E;
    cbn [fold_left fst snd] in *.
  - subst d'. destruct H as (H1 & H). cbn [fst] in H1. subst d.
    split; [reflexivity | exact H].
  - apply (IH (set_logFile_is_open false d',
               logged (set_logFile_is_open false d') m w1)
              (d', logged d' m w1_ok)); [| reflexivity].
    apply (twin_logged w w_ok (d, w1) (d_ok, w1_ok) d' m H).
Qed.

Lemma twin_console w w_ok s s_ok text :
  console_only_twin w w_ok s s_ok ->
  console_only_twin w w_ok (fst s, emit (Cout text) (snd s))
                           (fst s_ok, emit (Cout text) (snd s_ok)).
Proof.
  intros (H1 & Hc & Ht & He & Heo & Hcon & Hfile & Herr & Hhd).
  unfold console_only_twin. cbn [fst snd].
  rewrite !since_emit_after by assumption.
  rewrite !console_lines_app, file_lines_app, error_lines_app.
  repeat split; try assumption.
  - apply extends_emit, He.
  - apply extends_emit, Heo.
  - rewrite Hcon. reflexivity.
  - rewrite Hfile. reflexivity.
  - rewrite Herr. reflexivity.
  - apply hd_error_app, Hhd.
Qed.

Lemma call_twin w w_ok op s s_ok :
  console_only_twin w w_ok s s_ok ->
  console_only_twin w w_ok (snd (call op s)) (snd (call op s_ok)).
Proof.
  destruct s as [d w1], s_ok as [d_ok w1_ok]. intros H.
  pose proof H as (H1 & _). cbn [fst] in H1. subst d.
  destruct op; cbn [call].
  - rewrite !setDeviceName_run.
    apply (twin_logged w w_ok _ _ (set_deviceName name d_ok) _ H).
  - rewrite !setDeviceType_run.
    apply (twin_logged w w_ok _ _ (set_deviceType type d_ok) _ H).
  - rewrite !setPoweredOn_run.
    apply (twin_logged w w_ok _ _ (set_isPoweredOn powered d_ok) _ H).
  - rewrite !setBatteryLevel_run.
    apply (twin_logged w w_ok _ _
             (set_batteryLevel (Z.min 100 (Z.max 0 level)) d_ok) _ H).
  - rewrite !setTemperature_run.
    apply (twin_logged w w_ok _ _ (set_temperature temp d_ok) _ H).
  - rewrite !setLocation_run.
    apply (twin_logged w w_ok _ _ (set_location loc d_ok) _ H).
  - rewrite !powerToggle_run.
    apply (twin_logged w w_ok _ _
             (set_isPoweredOn (negb (isPoweredOn d_ok)) d_ok) _ H).
  - destruct (isPoweredOn d_ok) eqn:Hp.
    + rewrite (bind_run _ _ _ _ _
                 (chargeBattery_on amount (set_logFile_is_open false d_ok)
                                   w1 Hp)).
      rewrite (bind_run _ _ _ _ _ (chargeBattery_on amount d_ok w1_ok Hp)).
      apply (twin_logged w w_ok _ _
               (set_batteryLevel
                  (if int_add (batteryLevel d_ok) amount >? 100 then 100
                   else int_add (batteryLevel d_ok) amount) d_ok) _ H).
    + rewrite (bind_run _ _ _ _ _
                 (chargeBattery_off amount (set_logFile_is_open false d_ok)
                                    w1 Hp)).
      rewrite (bind_run _ _ _ _ _ (chargeBattery_off amount d_ok w1_ok Hp)).
      apply (twin_logged w w_ok _ _ d_ok _ H).
  - destruct (isPoweredOn d_ok) eqn:Hp.
    + rewrite (adjustTemperature_on delta (set_logFile_is_open false d_ok)
                                    w1 Hp).
      rewrite (adjustTemperature_on delta d_ok w1_ok Hp).
      apply (twin_logged w w_ok _ _
               (set_temperature (float_add (temperature d_ok) delta) d_ok)
               _ H).
    + rewrite (adjustTemperature_off delta (set_logFile_is_open false d_ok)
                                     w1 Hp).
      rewrite (adjustTemperature_off delta d_ok w1_ok Hp).
      apply (twin_logged w w_ok _ _ d_ok _ H).
  - rewrite !displayInfo_run.
    apply (twin_console w w_ok _ _ (getDeviceStatus d_ok ++ endl) H).
  - rewrite !performDiagnostics_run.
    apply (twin_logged_all w w_ok d_ok (diagnostic_report d_ok) _ _ H).
    reflexivity.
Qed.

Lemma run_twin w w_ok ops s s_ok :
  console_only_twin w w_ok s s_ok ->
  console_only_twin w w_ok (snd (run ops s)) (snd (run ops s_ok)).
Proof.
  revert s s_ok. induction ops as [| op rest IH]; intros s s_ok H.
  - exact H.
  - cbn [run]. unfold bind.
    pose proof (call_twin w w_ok op s s_ok H) as Hstep.
    destruct (call op s) as [[] s1], (call op s_ok) as [[] s1_ok].
    apply IH, Hstep.
Qed.

Lemma destroy_twin w w_ok s s_ok :
  console_only_twin w w_ok s s_ok ->
  console_only_twin w w_ok (snd (destroy s)) (snd (destroy s_ok)).
Proof.
  destruct s as [d w1], s_ok as [d_ok w1_ok]. intros H.
  pose proof H as (H1 & _). cbn [fst] in H1. subst d.
  pose proof (twin_logged w w_ok _ _ d_ok
                ("Device " ++ deviceName d_ok ++ " destroyed") H) as Hl.
  cbn [snd] in Hl.
  unfold destroy. step.
  cbn [logFile_is_open set_logFile_is_open]. step.
  destruct (logFile_is_open d_ok) eqn:Ho; step; cbn [snd].
  - destruct Hl as (_ & Hl). split; [reflexivity | exact Hl].
  - destruct Hl as (_ & Hl). split; [| exact Hl].
    cbn [fst]. destruct d_ok; cbn in *. subst. reflexivity.
Qed.

Lemma new_twin c w :
  can_open w "device_log.txt" = false ->
  console_only_twin w (with_working_sink w)
                    (new c w) (new c (with_working_sink w)).
Proof.
  intros Hno.
  assert (Hbase : forall d0,
    console_only_twin w (with_working_sink w)
      (set_logFile_is_open false d0, opened "device_log.txt" w)
      (set_logFile_is_open true d0,
       opened "device_log.txt" (with_working_sink w))).
  { intros d0. unfold console_only_twin, opened. rewrite Hno.
    cbn [fst snd with_working_sink can_open].
    rewrite (since_emit_after w w _ (extends_refl w)), !since_self.
    repeat split; try reflexivity.
    - apply extends_emit, extends_refl.
    - apply extends_refl. }
  assert (Hdefault :
    console_only_twin w (with_working_sink w)
                      (new New w) (new New (with_working_sink w))).
  { rewrite !new_default. unfold with_sink. rewrite Hno.
    cbn [with_working_sink can_open].
    apply (twin_logged w (with_working_sink w) _ _
             (set_logFile_is_open true SmartDevice_default_init) _
             (Hbase SmartDevice_default_init)). }
  assert (Hnamed : forall name,
    console_only_twin w (with_working_sink w)
      (new (NewNamed name) w) (new (NewNamed name) (with_working_sink w))).
  { intros name. rewrite !new_named.
    destruct Hdefault as (H1 & Hrest). rewrite H1.
    apply (twin_logged w (with_working_sink w) _ _
             (set_deviceName name (fst (new New (with_working_sink w)))) _
             (conj H1 Hrest)). }
  assert (Htyped : forall name type,
    console_only_twin w (with_working_sink w)
      (new (NewNamedTyped name type) w)
      (new (NewNamedTyped name type) (with_working_sink w))).
  { intros name type. rewrite !new_named_typed.
    destruct (Hnamed name) as (H1 & Hrest). rewrite H1.
    apply (twin_logged w (with_working_sink w) _ _
             (set_deviceType type
                (fst (new (NewNamed name) (with_working_sink w)))) _
             (conj H1 Hrest)). }
  destruct c.
  - exact Hdefault.
  - apply Hnamed.
  - apply Htyped.
  - rewrite !new_named_typed_at.
    destruct (Htyped name type) as (H1 & Hrest). rewrite H1.
    apply (twin_logged w (with_working_sink w) _ _
             (set_location loc
                (fst (new (NewNamedTyped name type) (with_working_sink w))))
             _ (conj H1 Hrest)).
  - rewrite !new_full. unfold with_sink. rewrite Hno.
    cbn [with_working_sink can_open].
    apply (twin_logged w (with_working_sink w) _ _
             (set_logFile_is_open true
                (SmartDevice_full_init name type powered battery temp loc)) _
             (Hbase (SmartDevice_full_init name type powered battery temp
                                           loc))).
Qed.

(** *** How the writes of a run add up *)

Lemma since_trans w w1 w2 :
  extends w w1 -> extends w1 w2 ->
  since w w2 = (since w w1 ++ since w1 w2)%list.
Proof.
  intros [e1 H1] [e2 H2].
  rewrite (since_app w w1 e1 H1), (since_app w1 w2 e2 H2).
  apply since_app. rewrite H2, H1, app_assoc. reflexivity.
Qed.

Lemma effect_refl open w : effect open w w 0 0.
Proof.
  unfold effect. rewrite since_self.
  repeat split; try reflexivity.
  - apply extends_refl.
  - cbn. lia.
  - destruct open; reflexivity.
  - destruct open; reflexivity.
Qed.

Lemma effect_logged d message w :
  effect (logFile_is_open d) w (logged d message w) 1 0.
Proof.
  unfold effect. rewrite since_logged, console_lines_entry, file_lines_entry,
    error_lines_entry.
  repeat split; try reflexivity.
  - apply extends_logged, extends_refl.
  - cbn [logged clock_reads]. lia.
  - destruct (logFile_is_open d); reflexivity.
Qed.

Lemma effect_console open w text :
  effect open w (emit (Cout text) w) 0 1.
Proof.
  unfold effect.
  rewrite (since_emit_after w w _ (extends_refl w)), since_self.
  repeat split; try reflexivity.
  - apply extends_emit, extends_refl.
  - cbn [emit clock_reads]. lia.
  - destruct open; reflexivity.
  - discriminate.
Qed.

Lemma effect_trans open w w1 w2 n p n' p' :
  effect open w w1 n p -> effect open w1 w2 n' p' ->
  effect open w w2 (n + n') (p + p').
Proof.
  intros (He & Ho & Ht & Hc & Hcon & Hfile & Herr & Hmir)
         (He' & Ho' & Ht' & Hc' & Hcon' & Hfile' & Herr' & Hmir').
  unfold effect.
  rewrite (since_trans w w1 w2 He He').
  rewrite console_lines_app, file_lines_app, error_lines_app, !length_app.
  repeat split.
  - destruct He as [e1 H1], He' as [e2 H2]. exists (e1 ++ e2)%list.
    rewrite H2, H1, app_assoc. reflexivity.
  - rewrite Ho'. exact Ho.
  - rewrite Ht'. exact Ht.
  - lia.
  - lia.
  - rewrite Hfile, Hfile'. destruct open; lia.
  - rewrite Herr, Herr'. reflexivity.
  - intros Hp. rewrite Hmir, Hmir' by lia. destruct open; reflexivity.
Qed.

Lemma effect_logged_all d messages w :
  effect (logFile_is_open d) w (logged_all d messages w) (length messages) 0.
Proof.
  unfold logged_all. revert w.
  induction messages as [| m rest IH]; intros w; cbn [fold_left length].
  - apply effect_refl.
  - apply (effect_trans _ w (logged d m w) _ 1 0 (length rest) 0).
    + apply effect_logged.
    + apply IH.
Qed.

Lemma call_effect op d w :
  logFile_is_open (fst (snd (call op (d, w)))) = logFile_is_open d
  /\ effect (logFile_is_open d) w (snd (snd (call op (d, w))))
            (log_entries op) (plain_writes op).
Proof.
  destruct op; cbn [call log_entries plain_writes].
  - rewrite setDeviceName_run. split; [reflexivity |].
    apply (effect_logged (set_deviceName name d)).
  - rewrite setDeviceType_run. split; [reflexivity |].
    apply (effect_logged (set_deviceType type d)).
  - rewrite setPoweredOn_run. split; [reflexivity |].
    apply (effect_logged (set_isPoweredOn powered d)).
  - rewrite setBatteryLevel_run. split; [reflexivity |].
    apply (effect_logged (set_batteryLevel (Z.min 100 (Z.max 0 level)) d)).
  - rewrite setTemperature_run. split; [reflexivity |].
    apply (effect_logged (set_temperature temp d)).
  - rewrite setLocation_run. split; [reflexivity |].
    apply (effect_logged (set_location loc d)).
  - rewrite powerToggle_run. split; [reflexivity |].
    apply (effect_logged (set_isPoweredOn (negb (isPoweredOn d)) d)).
  - destruct (isPoweredOn d) eqn:Hp.
    + rewrite (bind_run _ _ _ _ _ (chargeBattery_on amount d w Hp)).
      split; [reflexivity |].
      apply (effect_logged
               (set_batteryLevel
                  (if int_add (batteryLevel d) amount >? 100 then 100
                   else int_add (batteryLevel d) amount) d)).
    + rewrite (bind_run _ _ _ _ _ (chargeBattery_off amount d w Hp)).
      split; [reflexivity |]. apply effect_logged.
  - destruct (isPoweredOn d) eqn:Hp.
    + rewrite (adjustTemperature_on delta d w Hp).
      split; [reflexivity |].
      apply (effect_logged
               (set_temperature (float_add (temperature d) delta) d)).
    + rewrite (adjustTemperature_off delta d w Hp).
      split; [reflexivity |]. apply effect_logged.
  - rewrite displayInfo_run. split; [reflexivity |]. apply effect_console.
  - rewrite performDiagnostics_run. split; [reflexivity |].
    apply (effect_logged_all d (diagnostic_report d) w).
Qed.

Lemma run_effect ops d w :
  logFile_is_open (fst (snd (run ops (d, w)))) = logFile_is_open d
  /\ effect (logFile_is_open d) w (snd (snd (run ops (d, w))))
            (list_sum (map log_entries ops))
            (list_sum (map plain_writes ops)).
Proof.
  revert d w. induction ops as [| op rest IH]; intros d w.
  - cbn. split; [reflexivity | apply effect_refl].
  - cbn [run map list_sum fold_right]. unfold bind.
    destruct (call_effect op d w) as [Hopen Heff].
    destruct (call op (d, w)) as [[] [d1 w1]]. cbn [fst snd] in *.
    destruct (IH d1 w1) as [Hopen' Heff'].
    rewrite Hopen in Hopen', Heff'.
    split; [exact Hopen' |].
    exact (effect_trans _ w w1 _ _ _ _ _ Heff Heff').
Qed.

Lemma destroy_run d w :
  destroy (d, w)
  = (tt, (set_logFile_is_open false d,
          logged d ("Device " ++ deviceName d ++ " destroyed") w)).
Proof.
  unfold destroy. step.
  destruct (logFile_is_open d) eqn:Ho; step.
  destruct d; cbn in *. subst. reflexivity.
Qed.

Lemma new_effect c w :
  logFile_is_open (fst (new c w)) = can_open w "device_log.txt"
  /\ effect (can_open w "device_log.txt") (opened "device_log.txt" w)
            (snd (new c w)) (ctor_entries c) 0.
Proof.
  assert (H1 : forall init message,
    effect (can_open w "device_log.txt") (opened "device_log.txt" w)
           (logged (with_sink w init) message (opened "device_log.txt" w))
           1 0).
  { intros init message. apply (effect_logged (with_sink w init)). }
  assert (Hstep : forall (d : SmartDevice) message w1 n,
    logFile_is_open d = can_open w "device_log.txt" ->
    effect (can_open w "device_log.txt") (opened "device_log.txt" w) w1 n 0 ->
    effect (can_open w "device_log.txt") (opened "device_log.txt" w)
           (logged d message w1) (n + 1) 0).
  { intros d message w1 n Hd Heff.
    apply (effect_trans _ _ w1 _ n 0 1 0 Heff).
    rewrite <- Hd. apply effect_logged. }
  destruct c; cbn [ctor_entries].
  - rewrite new_default. split; [reflexivity | apply H1].
  - rewrite new_named, new_default. cbn [fst snd].
    split; [reflexivity |].
    apply (Hstep _ _ _ 1%nat); [reflexivity | apply H1].
  - rewrite new_named_typed, new_named, new_default. cbn [fst snd].
    split; [reflexivity |].
    apply (Hstep _ _ _ 2%nat); [reflexivity |].
    apply (Hstep _ _ _ 1%nat); [reflexivity | apply H1].
  - rewrite new_named_typed_at, new_named_typed, new_named, new_default.
    cbn [fst snd]. split; [reflexivity |].
    apply (Hstep _ _ _ 3%nat); [reflexivity |].
    apply (Hstep _ _ _ 2%nat); [reflexivity |].
    apply (Hstep _ _ _ 1%nat); [reflexivity | apply H1].
  - rewrite new_full. split; [reflexivity | apply H1].
Qed.

Lemma lifetime_effect c ops w :
  effect (can_open w "device_log.txt") (opened "device_log.txt" w)
         (snd (snd (destroy (snd (run ops (new c w))))))
         (ctor_entries c + list_sum (map log_entries ops) + 1)
         (list_sum (map plain_writes ops)).
Proof.
  destruct (new_effect c w) as [Hopen Hnew].
  destruct (new c w) as [d1 w1] eqn:Enew. cbn [fst snd] in Hopen, Hnew.
  destruct (run_effect ops d1 w1) as [Hopen' Hrun].
  destruct (run ops (d1, w1)) as [[] [d2 w2]]. cbn [fst snd] in *.
  rewrite destroy_run. cbn [snd].
  rewrite Hopen in Hopen', Hrun.
  replace (list_sum (map plain_writes ops))
    with (0 + list_sum (map plain_writes ops) + 0)%nat by lia.
  apply (effect_trans _ _ w2).
  - apply (effect_trans _ _ w1); assumption.
  - rewrite <- Hopen'. apply effect_logged.
Qed.

(** Over a whole lifetime (any constructor, any sequence of calls, the
    destructor) the console gets one write per log entry and one write per
    [displayInfo], the latter being the status block of five lines; the
    sink gets one write per log entry when the file could be opened and
    none otherwise; the error stream gets the open-failure notice or
    nothing; the clock is read twice per log entry; the sink is closed at
    the end.  [console_lines], [file_lines] and [error_lines] list the text
    of each write, one item per output statement. *)
Theorem lifetime_writes_add_up c ops w :
  let final := snd (destroy (snd (run ops (new c w)))) in
  let n := (ctor_entries c + list_sum (map log_entries ops) + 1)%nat in
  length (console_lines (since w (snd final)))
  = (n + list_sum (map plain_writes ops))%nat
  /\ length (file_lines (since w (snd final)))
     = (if can_open w "device_log.txt" then n else 0)%nat
  /\ error_lines (since w (snd final))
     = (if can_open w "device_log.txt" then []
        else ["Failed to open log file: device_log.txt" ++ endl])
  /\ clock_reads (snd final) = (clock_reads w + 2 * n)%nat
  /\ logFile_is_open (fst final) = false.
Proof.
  intros final n.
  pose proof (lifetime_effect c ops w) as Heff. fold final n in Heff.
  destruct Heff as (He & _ & _ & Hc & Hcon & Hfile & Herr & _).
  assert (H0 : extends w (opened "device_log.txt" w))
    by apply extends_opened, extends_refl.
  rewrite (since_trans w _ _ H0 He).
  rewrite console_lines_app, file_lines_app, error_lines_app, !length_app.
  rewrite Hcon, Hfile, Herr, Hc, since_opened.
  assert (Hclosed : logFile_is_open (fst final) = false).
  { subst final. destruct (run ops (new c w)) as [[] [d2 w2]].
    cbn [snd]. rewrite destroy_run. reflexivity. }
  unfold opened.
  destruct (can_open w "device_log.txt"); cbn; repeat split;
    solve [reflexivity | lia | exact Hclosed].
Qed.

Lemma logs_only_no_plain_writes ops :
  forallb logs_only ops = true -> list_sum (map plain_writes ops) = 0%nat.
Proof.
  induction ops as [| op rest IH]; [reflexivity |].
  cbn [forallb]. intros H.
  apply andb_prop in H. destruct H as [Hop Hrest].
  change (plain_writes op + list_sum (map plain_writes rest) = 0)%nat.
  rewrite (IH Hrest). destruct op; try reflexivity. discriminate.
Qed.

(** When the log file can be opened and no call is [displayInfo], the sink
    holds, over the whole lifetime of an object, exactly the lines the
    console shows, in the same order. *)
Theorem sink_mirrors_console c ops w :
  can_open w "device_log.txt" = true ->
  forallb logs_only ops = true ->
  let final := snd (destroy (snd (run ops (new c w)))) in
  file_lines (since w (snd final)) = console_lines (since w (snd final)).
Proof.
  intros Hopen Hlogs final.
  pose proof (lifetime_effect c ops w) as Heff. fold final in Heff.
  rewrite (logs_only_no_plain_writes ops Hlogs), Hopen in Heff.
  destruct Heff as (_ & _ & _ & _ & _ & _ & _ & Hmir).
  unfold opened in Hmir. rewrite Hopen in Hmir. apply Hmir. reflexivity.
Qed.

(** *** Operation without a sink, call by call *)

Lemma run_app ops ops' s :
  run (ops ++ ops') s = run ops' (snd (run ops s)).
Proof.
  revert s. induction ops as [| op rest IH]; intros s.
  - reflexivity.
  - cbn [app run]. unfold bind.
    destruct (call op s) as [[] s1]. apply IH.
Qed.

Lemma call_without_sink op d w :
  logFile_is_open d = false ->
  (fst (snd (call op (d, w))), since w (snd (snd (call op (d, w)))))
  = console_only_outcome op d w.
Proof.
  intros Hclosed. destruct op; cbn [call console_only_outcome].
  - rewrite setDeviceName_run. cbn [fst snd]. rewrite since_logged.
    unfold entry_events. cbn [logFile_is_open set_deviceName deviceName].
    rewrite Hclosed. reflexivity.
  - rewrite setDeviceType_run. cbn [fst snd]. rewrite since_logged.
    unfold entry_events. cbn [logFile_is_open set_deviceType deviceName].
    rewrite Hclosed. reflexivity.
  - rewrite setPoweredOn_run. cbn [fst snd]. rewrite since_logged.
    unfold entry_events. cbn [logFile_is_open set_isPoweredOn deviceName].
    rewrite Hclosed. reflexivity.
  - rewrite setBatteryLevel_run. cbn [fst snd]. rewrite since_logged.
    unfold entry_events. cbn [logFile_is_open set_batteryLevel deviceName].
    rewrite Hclosed. reflexivity.
  - rewrite setTemperature_run. cbn [fst snd]. rewrite since_logged.
    unfold entry_events. cbn [logFile_is_open set_temperature deviceName].
    rewrite Hclosed. reflexivity.
  - rewrite setLocation_run. cbn [fst snd]. rewrite since_logged.
    unfold entry_events. cbn [logFile_is_open set_location deviceName].
    rewrite Hclosed. reflexivity.
  - rewrite powerToggle_run. cbn [fst snd]. rewrite since_logged.
    unfold entry_events. cbn [logFile_is_open set_isPoweredOn deviceName].
    rewrite Hclosed. destruct (isPoweredOn d); reflexivity.
  - destruct (isPoweredOn d) eqn:Hp.
    + rewrite (bind_run _ _ _ _ _ (chargeBattery_on amount d w Hp)).
      unfold ret. cbn [fst snd]. rewrite since_logged.
      unfold entry_events. cbn [logFile_is_open set_batteryLevel deviceName].
      rewrite Hclosed. reflexivity.
    + rewrite (bind_run _ _ _ _ _ (chargeBattery_off amount d w Hp)).
      unfold ret. cbn [fst snd]. rewrite since_logged.
      unfold entry_events. rewrite Hclosed. reflexivity.
  - destruct (isPoweredOn d) eqn:Hp.
    + rewrite (adjustTemperature_on delta d w Hp). cbv zeta.
      cbn [fst snd]. rewrite since_logged.
      unfold entry_events.
      cbn [logFile_is_open set_temperature deviceName temperature].
      rewrite Hclosed. reflexivity.
    + rewrite (adjustTemperature_off delta d w Hp).
      cbn [fst snd]. rewrite since_logged.
      unfold entry_events. rewrite Hclosed. reflexivity.
  - rewrite displayInfo_run. cbn [fst snd].
    rewrite (since_emit_after w w _ (extends_refl w)), since_self.
    reflexivity.
  - rewrite performDiagnostics_run. cbn [fst snd].
    rewrite (since_app _ _ _ (trace_logged_all d (diagnostic_report d) w)).
    unfold diagnostic_report, temperature_out_of_range, isLowBattery.
    cbn [events_from]. unfold entry_events. rewrite Hclosed.
    reflexivity.
Qed.

Lemma new_without_sink c w :
  can_open w "device_log.txt" = false ->
  since w (snd (new c w))
  = Cerr ("Failed to open log file: device_log.txt" ++ endl)
      :: map Cout (ctor_console_entries c w).
Proof.
  intros Hno.
  destruct c; cbn [ctor_console_entries map];
    rewrite ?new_named_typed_at, ?new_named_typed, ?new_named, ?new_default,
      ?new_full;
    cbn [fst snd];
    rewrite !since_logged_after
      by (repeat apply extends_logged; apply extends_opened, extends_refl);
    rewrite since_opened, ?stamp_logged, ?stamp_opened;
    unfold entry_events, with_sink;
    cbn [deviceName logFile_is_open set_deviceName set_deviceType
         set_location set_logFile_is_open SmartDevice_default_init
         SmartDevice_full_init];
    rewrite Hno; reflexivity.
Qed.

(** C8: when the log file cannot be opened at construction, whichever
    constructor is used, the first thing written is the one-line notice
    "Failed to open log file: device_log.txt" on the error stream, and it is
    the only line there.  Construction succeeds: the data members are the
    ones the constructor was called for, and its log entries go to the
    console.  After any sequence of calls the next call, whichever it is,
    leaves the object it is meant to leave and writes its log entries to
    the console, and the destructor logs the teardown there; running the
    calls is making them one after the other.  Over the whole lifetime the
    console gets one write per log entry and one per [displayInfo], the
    same writes as with a working sink, and nothing is written to the
    sink. *)
Theorem sink_failure_degrades_to_console c ops w :
  can_open w "device_log.txt" = false ->
  let notice := "Failed to open log file: device_log.txt" ++ endl in
  let w_ok := with_working_sink w in
  let built := new c w in
  let used := snd (run ops built) in
  let ended := snd (destroy used) in
  let used_ok := snd (run ops (new c w_ok)) in
  let ended_ok := snd (destroy used_ok) in
  hd_error (since w (snd built)) = Some (Cerr notice)
  /\ error_lines (since w (snd ended)) = [notice]
  /\ logFile_is_open (fst built) = false
  /\ logFile_is_open (fst used) = false
  /\ fields (fst built) = fields (fst (new c w_ok))
  /\ fields (fst used) = fields (fst used_ok)
  /\ console_lines (since w (snd used)) = console_lines (since w_ok (snd used_ok))
  /\ console_lines (since w (snd ended))
     = console_lines (since w_ok (snd ended_ok))
  /\ file_lines (since w (snd used)) = []
  /\ file_lines (since w (snd ended)) = []
  /\ fields (fst built) = ctor_fields c
  /\ since w (snd built) = Cerr notice :: map Cout (ctor_console_entries c w)
  /\ (forall op,
        snd (run (ops ++ [op]) built) = snd (call op used)
        /\ (fst (snd (call op used)),
            since (snd used) (snd (snd (call op used))))
           = console_only_outcome op (fst used) (snd used))
  /\ fields (fst ended) = fields (fst used)
  /\ since (snd used) (snd ended)
     = [Cout (entry (stamp (snd used) 0) (deviceName (fst used))
                    ("Device " ++ deviceName (fst used) ++ " destroyed"))]
  /\ length (console_lines (since w (snd ended)))
     = (ctor_entries c + list_sum (map log_entries ops) + 1
        + list_sum (map plain_writes ops))%nat.
Proof.
  intros Hno notice w_ok built used ended used_ok ended_ok.
  pose proof (new_twin c w Hno) as Hb.
  pose proof (run_twin w w_ok ops _ _ Hb) as Hu.
  pose proof (destroy_twin w w_ok _ _ Hu) as He.
  fold w_ok built in Hb. fold built used used_ok in Hu.
  fold used used_ok ended ended_ok in He.
  destruct Hb as (Hb1 & _ & _ & _ & _ & _ & _ & _ & Hbhd).
  destruct Hu as (Hu1 & _ & _ & _ & _ & Hucon & Hufile & _ & _).
  destruct He as (_ & _ & _ & _ & _ & Hecon & Hefile & Heerr & _).
  assert (Hclosed : logFile_is_open (fst used) = false)
    by (rewrite Hu1; reflexivity).
  split; [exact Hbhd |]. split; [exact Heerr |].
  split; [rewrite Hb1; reflexivity |]. split; [exact Hclosed |].
  split; [rewrite Hb1; reflexivity |].
  split; [rewrite Hu1; reflexivity |].
  split; [exact Hucon |]. split; [exact Hecon |].
  split; [exact Hufile |]. split; [exact Hefile |].
  split.
  { unfold built.
    destruct c;
      rewrite ?new_named_typed_at, ?new_named_typed, ?new_named,
        ?new_default, ?new_full;
      reflexivity. }
  split; [apply new_without_sink, Hno |].
  split.
  { intros op. split.
    - rewrite run_app. cbn [run]. unfold bind, used.
      destruct (call op (snd (run ops built))) as [[] s1]. reflexivity.
    - unfold used in *. destruct (snd (run ops built)) as [d1 w1].
      cbn [fst snd] in *. apply call_without_sink, Hclosed. }
  assert (Hdestroy :
    fields (fst ended) = fields (fst used)
    /\ since (snd used) (snd ended)
       = [Cout (entry (stamp (snd used) 0) (deviceName (fst used))
                      ("Device " ++ deviceName (fst used) ++ " destroyed"))]).
  { unfold ended. destruct used as [d1 w1]. cbn [fst snd] in *.
    rewrite destroy_run. cbn [fst snd]. rewrite since_logged.
    unfold entry_events. rewrite Hclosed. split; reflexivity. }
  split; [apply Hdestroy |]. split; [apply Hdestroy |].
  pose proof (lifetime_effect c ops w) as Heff.
  fold built used ended in Heff.
  destruct Heff as (Hext & _ & _ & _ & Hcount & _).
  assert (H0 : extends w (opened "device_log.txt" w))
    by apply extends_opened, extends_refl.
  rewrite (since_trans w _ _ H0 Hext), console_lines_app, length_app.
  rewrite Hcount, since_opened, Hno. cbn. lia.
Qed.

(** *** The battery range along a run *)

Lemma call_keeps_range op d w :
  charge_in_range op = true ->
  in_percent_range (batteryLevel d) ->
  in_percent_range (batteryLevel (fst (snd (call op (d, w))))).
Proof.
  unfold in_percent_range. intros Hc Hb.
  destruct op; cbn [call charge_in_range] in *.
  - rewrite setDeviceName_run. exact Hb.
  - rewrite setDeviceType_run. exact Hb.
  - rewrite setPoweredOn_run. exact Hb.
  - rewrite setBatteryLevel_run. cbn. lia.
  - rewrite setTemperature_run. exact Hb.
  - rewrite setLocation_run. exact Hb.
  - rewrite powerToggle_run. exact Hb.
  - apply andb_prop in Hc. destruct Hc as [H0 Hmax].
    apply Z.leb_le in H0. apply Z.leb_le in Hmax. unfold INT_MAX in Hmax.
    destruct (isPoweredOn d) eqn:Hp.
    + rewrite (bind_run _ _ _ _ _ (chargeBattery_on amount d w Hp)).
      unfold ret. cbn [fst snd batteryLevel set_batteryLevel].
      unfold int_add.
      rewrite wrap_int_id by (unfold INT_MIN, INT_MAX; lia).
      destruct (Z.gtb_spec (batteryLevel d + amount) 100); lia.
    + rewrite (bind_run _ _ _ _ _ (chargeBattery_off amount d w Hp)).
      exact Hb.
  - destruct (isPoweredOn d) eqn:Hp.
    + rewrite (adjustTemperature_on delta d w Hp). exact Hb.
    + rewrite (adjustTemperature_off delta d w Hp). exact Hb.
  - rewrite displayInfo_run. exact Hb.
  - rewrite performDiagnostics_run. exact Hb.
Qed.

Lemma run_keeps_range ops d w :
  forallb charge_in_range ops = true ->
  in_percent_range (batteryLevel d) ->
  in_percent_range (batteryLevel (fst (snd (run ops (d, w))))).
Proof.
  revert d w. induction ops as [| op rest IH]; intros d w Hc Hb.
  - exact Hb.
  - cbn [forallb] in Hc. apply andb_prop in Hc. destruct Hc as [Hop Hrest].
    cbn [run]. unfold bind.
    pose proof (call_keeps_range op d w Hop Hb) as Hstep.
    destruct (call op (d, w)) as [[] [d1 w1]]. cbn [fst snd] in Hstep.
    apply IH; assumption.
Qed.

Lemma new_fields c w : fields (fst (new c w)) = ctor_fields c.
Proof.
  destruct c;
    rewrite ?new_named_typed_at, ?new_named_typed, ?new_named, ?new_default,
      ?new_full;
    reflexivity.
Qed.

Lemma forallb_firstn {A : Type} (f : A -> bool) (l : list A) (k : nat) :
  forallb f l = true -> forallb f (firstn k l) = true.
Proof.
  revert k. induction l as [| a l IH]; intros [| k] H; try reflexivity.
  cbn [forallb firstn] in *. apply andb_prop in H. destruct H as [Ha Hl].
  rewrite Ha, (IH k Hl). reflexivity.
Qed.

(** An object whose constructor was not handed an out-of-range battery
    value keeps its battery level in [0, 100] at every point of a run in
    which every charge request is for an amount between 0 and
    [INT_MAX - 100]. *)
Theorem battery_range_kept c ops w k :
  match c with
  | NewFull _ _ _ battery _ _ => in_percent_range battery
  | _ => True
  end ->
  forallb charge_in_range ops = true ->
  in_percent_range
    (getBatteryLevel (fst (snd (run (firstn k ops) (new c w))))).
Proof.
  intros Hc Hops. unfold getBatteryLevel.
  assert (H0 : in_percent_range (batteryLevel (fst (new c w)))).
  { destruct c;
      rewrite ?new_named_typed_at, ?new_named_typed, ?new_named,
        ?new_default, ?new_full;
      cbn [fst batteryLevel set_location set_deviceType set_deviceName
           with_sink set_logFile_is_open SmartDevice_default_init
           SmartDevice_full_init];
      solve [exact Hc | unfold in_percent_range; lia]. }
  destruct (new c w) as [d1 w1]. cbn [fst] in H0.
  apply run_keeps_range; [apply forallb_firstn, Hops | exact H0].
Qed.

(** Whatever the world, each constructor leaves the data members at the
    values it was given and the defaults ("Unknown", "Generic", off, 100,
    20.0, "Not set") for the rest, and the sink is open exactly when the
    log file could be opened. *)
Theorem constructors_set_members c w :
  fields (fst (new c w)) = ctor_fields c
  /\ logFile_is_open (fst (new c w)) = can_open w "device_log.txt".
Proof.
  split; [apply new_fields | apply new_effect].
Qed.

(** *** Single operations *)

(** [setBatteryLevel] brings the battery level into [0, 100] whatever the
    argument and whatever the level was before: an in-range argument is
    stored as it is, a negative one as 0, one above 100 as 100; afterwards
    [isLowBattery] holds exactly when the argument was below 20. *)
Theorem setBatteryLevel_restores_range level d w :
  let d' := fst (snd (setBatteryLevel level (d, w))) in
  in_percent_range (getBatteryLevel d')
  /\ (in_percent_range level -> getBatteryLevel d' = level)
  /\ (level < 0 -> getBatteryLevel d' = 0)
  /\ (100 < level -> getBatteryLevel d' = 100)
  /\ isLowBattery d' = (level <? 20).
Proof.
  cbv zeta. rewrite setBatteryLevel_run.
  unfold in_percent_range, getBatteryLevel, isLowBattery.
  cbn [fst snd batteryLevel set_batteryLevel].
  split; [lia |]. split; [lia |]. split; [lia |]. split; [lia |].
  destruct (Z.ltb_spec (Z.min 100 (Z.max 0 level)) 20),
    (Z.ltb_spec level 20); try reflexivity; lia.
Qed.

(** On a powered device [chargeBattery] never leaves the battery level
    above 100, whatever the amount and whatever the level was before; it
    leaves it at exactly 100 whenever the sum fits an [int] and reaches
    100. *)
Theorem chargeBattery_caps_at_100 amount d w :
  isPoweredOn d = true ->
  getBatteryLevel (fst (snd (chargeBattery amount (d, w)))) <= 100
  /\ (100 <= batteryLevel d + amount <= INT_MAX ->
      getBatteryLevel (fst (snd (chargeBattery amount (d, w)))) = 100).
Proof.
  intros Hon. rewrite (chargeBattery_on amount d w Hon). cbv zeta.
  unfold getBatteryLevel. cbn [fst snd batteryLevel set_batteryLevel].
  split.
  - destruct (Z.gtb_spec (int_add (batteryLevel d) amount) 100); lia.
  - intros Hsum. unfold int_add.
    rewrite wrap_int_id by (unfold INT_MIN, INT_MAX in *; lia).
    destruct (Z.gtb_spec (batteryLevel d + amount) 100); lia.
Qed.

(** [powerToggle] flips the power state, and a second [powerToggle] gives
    back the object as it was; the two entries logged report the two
    states in turn. *)
Theorem powerToggle_twice_restores d w :
  let once := snd (powerToggle (d, w)) in
  let twice := snd (powerToggle once) in
  getIsPoweredOn (fst once) = negb (getIsPoweredOn d)
  /\ fst twice = d
  /\ console_lines (since w (snd twice))
     = [entry (stamp w 0) (deviceName d)
              ("Device toggled to: "
                 ++ (if isPoweredOn d then "OFF" else "ON"));
        entry (stamp w 1) (deviceName d)
              ("Device toggled to: "
                 ++ (if isPoweredOn d then "ON" else "OFF"))].
Proof.
  cbv zeta. rewrite powerToggle_run. cbn [fst snd].
  rewrite powerToggle_run. cbn [fst snd].
  rewrite since_logged_after by apply extends_logged, extends_refl.
  rewrite since_logged, console_lines_app, !console_lines_entry,
    stamp_logged.
  unfold getIsPoweredOn.
  destruct d as [n t p b tmp l o]; destruct p; repeat split.
Qed.

(** The destructor logs one entry, "Device <name> destroyed" under the
    object's current name, to the sink if it is still open and then to the
    console; afterwards the sink is closed, and the data members are as
    they were. *)
Theorem destructor_logs_and_closes d w :
  let r := snd (destroy (d, w)) in
  fields (fst r) = fields d
  /\ logFile_is_open (fst r) = false
  /\ since w (snd r)
     = entry_events d (stamp w 0)
                    ("Device " ++ deviceName d ++ " destroyed").
Proof.
  cbv zeta. rewrite destroy_run. cbn [fst snd].
  rewrite since_logged. repeat split.
Qed.

(** A call changes only the member it is for: the name changes only by
    [setDeviceName], the type only by [setDeviceType], the location only by
    [setLocation], the power state only by [setPoweredOn] and
    [powerToggle], the battery level only by [setBatteryLevel] and
    [chargeBattery], the temperature only by [setTemperature] and
    [adjustTemperature]; no call opens or closes the sink. *)
Theorem calls_touch_only_their_member op d w :
  let d' := fst (snd (call op (d, w))) in
  logFile_is_open d' = logFile_is_open d
  /\ match op with
     | SetDeviceName _ => True
     | _ => deviceName d' = deviceName d
     end
  /\ match op with
     | SetDeviceType _ => True
     | _ => deviceType d' = deviceType d
     end
  /\ match op with
     | SetLocation _ => True
     | _ => location d' = location d
     end
  /\ match op with
     | SetPoweredOn _ | PowerToggle => True
     | _ => isPoweredOn d' = isPoweredOn d
     end
  /\ match op with
     | SetBatteryLevel _ | ChargeBattery _ => True
     | _ => batteryLevel d' = batteryLevel d
     end
  /\ match op with
     | SetTemperature _ | AdjustTemperature _ => True
     | _ => temperature d' = temperature d
     end.
Proof.
  cbv zeta. destruct op; cbn [call].
  - rewrite setDeviceName_run. repeat split.
  - rewrite setDeviceType_run. repeat split.
  - rewrite setPoweredOn_run. repeat split.
  - rewrite setBatteryLevel_run. repeat split.
  - rewrite setTemperature_run. repeat split.
  - rewrite setLocation_run. repeat split.
  - rewrite powerToggle_run. repeat split.
  - destruct (isPoweredOn d) eqn:Hp.
    + rewrite (bind_run _ _ _ _ _ (chargeBattery_on amount d w Hp)).
      unfold ret. repeat split; exact Hp.
    + rewrite (bind_run _ _ _ _ _ (chargeBattery_off amount d w Hp)).
      unfold ret. repeat split; exact Hp.
  - destruct (isPoweredOn d) eqn:Hp.
    + rewrite (adjustTemperature_on delta d w Hp). repeat split; exact Hp.
    + rewrite (adjustTemperature_off delta d w Hp). repeat split; exact Hp.
  - rewrite displayInfo_run. repeat split.
  - rewrite performDiagnostics_run. repeat split.
Qed.

(** [displayInfo] writes one thing, the status text and a newline, to the
    console: nothing goes to the sink or to the error stream, the clock is
    not read and the object is not changed.  The text is determined by the
    six data members alone, so it is the same with and without a sink. *)
Theorem displayInfo_shows_members d d' w w' :
  fields d = fields d' ->
  fst (snd (displayInfo (d, w))) = d
  /\ since w (snd (snd (displayInfo (d, w))))
     = [Cout (getDeviceStatus d ++ endl)]
  /\ clock_reads (snd (snd (displayInfo (d, w)))) = clock_reads w
  /\ console_lines (since w (snd (snd (displayInfo (d, w)))))
     = console_lines (since w' (snd (snd (displayInfo (d', w'))))).
Proof.
  intros Hf. rewrite !displayInfo_run. cbn [fst snd].
  rewrite !(since_emit_after _ _ _ (extends_refl _)), !since_self.
  repeat split.
  destruct d as [n t p b tmp l o], d' as [n' t' p' b' tmp' l' o'].
  unfold fields in Hf. cbn in Hf. injection Hf as -> -> -> -> -> ->.
  reflexivity.
Qed.

(** *** The demonstration program *)

Lemma reached_refl w : reached w w 0 [].
Proof.
  unfold reached. repeat split.
  - lia.
  - symmetry. apply app_nil_r.
Qed.

Lemma reached_logged w W n evs d message :
  reached w W n evs ->
  reached w (logged d message W) (S n)
          (evs ++ entry_events d (stamp w n) message).
Proof.
  intros (Ho & Ht & Hc & Htr). unfold reached, logged, stamp.
  cbn [can_open time_source clock_reads trace].
  rewrite Ht, Hc, Htr, <- app_assoc.
  replace (clock_reads w + 2 * n + 2 * 0 + 1)%nat
    with (clock_reads w + 2 * n + 1)%nat by lia.
  repeat split; try assumption. lia.
Qed.

Lemma reached_emit w W n evs e :
  reached w W n evs -> reached w (emit e W) n (evs ++ [e]).
Proof.
  intros (Ho & Ht & Hc & Htr). unfold reached, emit.
  cbn [can_open time_source clock_reads trace].
  rewrite Htr, <- app_assoc. repeat split; assumption.
Qed.

Lemma reached_opened w W n evs filename :
  reached w W n evs ->
  reached w (opened filename W) n
          (evs ++ (if can_open w filename then []
                   else [Cerr ("Failed to open log file: " ++ filename
                                 ++ endl)])).
Proof.
  intros R. pose proof R as (Ho & Ht & Hc & Htr).
  unfold opened. rewrite Ho. destruct (can_open w filename).
  - rewrite app_nil_r. exact R.
  - apply reached_emit, R.
Qed.

Lemma reached_logged_all w W n evs d messages :
  reached w W n evs ->
  reached w (logged_all d messages W) (n + length messages)
          (evs ++ events_from d w n messages).
Proof.
  unfold logged_all. revert W n evs.
  induction messages as [| m rest IH]; intros W n evs R;
    cbn [fold_left events_from length].
  - rewrite app_nil_r, Nat.add_0_r. exact R.
  - replace (n + S (length rest))%nat with (S n + length rest)%nat by lia.
    rewrite app_assoc. apply IH, reached_logged, R.
Qed.

Lemma reached_sink w W n evs (init : SmartDevice) :
  reached w W n evs ->
  with_sink W init = with_sink w init.
Proof. intros (Ho & _). unfold with_sink. rewrite Ho. reflexivity. Qed.

Ltac advance :=
  match goal with
  | R : reached ?w ?W ?n ?evs |- context [opened ?f ?W] =>
      apply (reached_opened w W n evs f) in R;
      let W' := fresh "W" in
      remember (opened f W) as W' eqn:E in *; clear E
  | R : reached ?w ?W ?n ?evs |- context [logged ?d ?m ?W] =>
      apply (reached_logged w W n evs d m) in R;
      let W' := fresh "W" in
      remember (logged d m W) as W' eqn:E in *; clear E
  | R : reached ?w ?W ?n ?evs |- context [logged_all ?d ?ms ?W] =>
      apply (reached_logged_all w W n evs d ms) in R;
      let W' := fresh "W" in
      remember (logged_all d ms W) as W' eqn:E in *; clear E
  | R : reached ?w ?W ?n ?evs |- context [emit ?e ?W] =>
      apply (reached_emit w W n evs e) in R;
      let W' := fresh "W" in
      remember (emit e W) as W' eqn:E in *; clear E
  end.

Lemma fst_pair {A B : Type} (a : A) (b : B) : fst (a, b) = a.
Proof. reflexivity. Qed.

Lemma snd_pair {A B : Type} (a : A) (b : B) : snd (a, b) = b.
Proof. reflexivity. Qed.

Ltac pairs := repeat (rewrite fst_pair || rewrite snd_pair).

Lemma chargeBattery_on_run amount d w :
  isPoweredOn d = true ->
  chargeBattery amount (d, w)
  = (true,
     (set_batteryLevel
        (if int_add (batteryLevel d) amount >? 100 then 100
         else int_add (batteryLevel d) amount) d,
      logged
        (set_batteryLevel
           (if int_add (batteryLevel d) amount >? 100 then 100
            else int_add (batteryLevel d) amount) d)
        ("Battery charged by "
           ++ to_string
                (int_sub
                   (if int_add (batteryLevel d) amount >? 100 then 100
                    else int_add (batteryLevel d) amount)
                   (batteryLevel d))
           ++ "%. New level: "
           ++ to_string
                (if int_add (batteryLevel d) amount >? 100 then 100
                 else int_add (batteryLevel d) amount)
           ++ "%") w)).
Proof. intros H. exact (chargeBattery_on amount d w H). Qed.

(** In any world [main] returns 0.  The console shows the 25 entries of
    the five constructions and the calls, then the four lines of the
    report, then the five teardown entries, the objects being destroyed in
    the reverse order of their declaration.  The log file gets the 30
    entries when it can be opened; when it cannot, each of the five
    constructors puts its notice on the error stream.  The request to
    adjust the temperature of the camera, which was never powered on, is
    logged as rejected. *)
Theorem main_transcript w :
  let opens := can_open w "device_log.txt" in
  let line (k : nat) name message := entry (stamp w k) name message in
  let hub :=
    mkSmartDevice "Main Hub" "Control Center" true 100 float_20
                  "Living Room" opens in
  let lock :=
    mkSmartDevice "Front Door Lock" "Security Lock" true 95 float_22_5
                  "Front Door" opens in
  let setup :=
    [line 0%nat "Unknown" "Device created with default parameters";
     line 1%nat "Unknown" "Device created with default parameters";
     line 2%nat "Living Room Thermostat"
          "Device name set to: Living Room Thermostat";
     line 3%nat "Unknown" "Device created with default parameters";
     line 4%nat "Kitchen Light" "Device name set to: Kitchen Light";
     line 5%nat "Kitchen Light" "Device type set to: Light Switch";
     line 6%nat "Unknown" "Device created with default parameters";
     line 7%nat "Bedroom Camera" "Device name set to: Bedroom Camera";
     line 8%nat "Bedroom Camera" "Device type set to: Security Camera";
     line 9%nat "Bedroom Camera" "Device location set to: Bedroom";
     line 10%nat "Front Door Lock"
          "Device fully initialized with custom parameters";
     line 11%nat "Main Hub" "Device name changed to: Main Hub";
     line 12%nat "Main Hub" "Device type changed to: Control Center";
     line 13%nat "Main Hub" "Location changed to: Living Room";
     line 14%nat "Main Hub" "Device power state changed to: ON";
     line 15%nat "Main Hub" "Starting diagnostics...";
     line 16%nat "Main Hub" "Checking power: OK";
     line 17%nat "Main Hub" "Checking battery level: 100%";
     line 18%nat "Main Hub" "Battery level OK";
     line 19%nat "Main Hub"
          ("Checking temperature: " ++ to_string_float float_20 ++ "°C");
     line 20%nat "Main Hub" "Temperature OK";
     line 21%nat "Main Hub" "Diagnostics completed";
     line 22%nat "Kitchen Light" "Device toggled to: ON";
     line 23%nat "Front Door Lock" "Battery charged by 10%. New level: 95%";
     line 24%nat "Bedroom Camera"
          "Cannot adjust temperature - device is powered off"] in
  let report :=
    [endl ++ "Device Information:" ++ endl;
     "-------------------" ++ endl;
     getDeviceStatus hub ++ endl;
     endl ++ getDeviceStatus lock ++ endl] in
  let teardown :=
    [line 25%nat "Front Door Lock" "Device Front Door Lock destroyed";
     line 26%nat "Bedroom Camera" "Device Bedroom Camera destroyed";
     line 27%nat "Kitchen Light" "Device Kitchen Light destroyed";
     line 28%nat "Living Room Thermostat"
          "Device Living Room Thermostat destroyed";
     line 29%nat "Main Hub" "Device Main Hub destroyed"] in
  fst (main w) = 0
  /\ console_lines (since w (snd (main w)))
     = (setup ++ report ++ teardown)%list
  /\ file_lines (since w (snd (main w)))
     = (if opens then setup ++ teardown else [])%list
  /\ error_lines (since w (snd (main w)))
     = (if opens then []
        else repeat ("Failed to open log file: device_log.txt" ++ endl) 5).
Proof.
  cbv zeta. split; [unfold main; cbv zeta; cbn [fst]; reflexivity |].
  pose proof (reached_refl w) as R.
  unfold main. cbv zeta.
  rewrite new_default; pairs; repeat advance.
  rewrite new_named, new_default; pairs;
    rewrite !(reached_sink _ _ _ _ _ R); repeat advance.
  rewrite new_named_typed, new_named, new_default; pairs;
    rewrite !(reached_sink _ _ _ _ _ R); repeat advance.
  rewrite new_named_typed_at, new_named_typed, new_named, new_default;
    pairs; rewrite !(reached_sink _ _ _ _ _ R); repeat advance.
  rewrite new_full; pairs;
    rewrite !(reached_sink _ _ _ _ _ R); repeat advance.
  rewrite setDeviceName_run; pairs; advance.
  rewrite setDeviceType_run; pairs; advance.
  rewrite setLocation_run; pairs; advance.
  rewrite setPoweredOn_run; pairs; advance.
  rewrite performDiagnostics_run; pairs; advance.
  rewrite powerToggle_run; pairs; advance.
  erewrite chargeBattery_on_run by reflexivity; pairs; advance.
  erewrite adjustTemperature_off by reflexivity; pairs; advance.
  advance. advance.
  rewrite displayInfo_run; pairs; advance.
  advance.
  do 5 (match goal with
        | R : reached _ ?W _ _ |- _ => rewrite (destroy_run _ W)
        end; pairs; advance).
  destruct R as (_ & _ & _ & Htr).
  rewrite (since_app _ _ _ Htr).
  unfold with_sink.
  destruct (can_open w "device_log.txt");
    (split; [| split]); vm_compute; reflexivity.
Qed.

End Device.

(** ** Concrete runs *)

(** The sample objects are the ones [main] constructs. *)
Example front_door_lock_constructed :
  fst (new utc_put_time
           (NewFull "Front Door Lock" "Security Lock" true 85 float_22_5
                    "Front Door")
           sample_world)
  = front_door_lock.
Proof. reflexivity. Qed.

Example bedroom_camera_constructed :
  fst (new utc_put_time
           (NewNamedTypedAt "Bedroom Camera" "Security Camera" "Bedroom")
           sample_world)
  = bedroom_camera.
Proof. reflexivity. Qed.

(** [device2] of [main]: what its construction writes. *)
Example thermostat_construction_trace :
  trace (snd (new utc_put_time (NewNamed "Living Room Thermostat")
                  sample_world))
  = [FileWrite ("[2026-11-02 10:00:01] Unknown: "
                  ++ "Device created with default parameters" ++ endl);
     Cout ("[2026-11-02 10:00:01] Unknown: "
             ++ "Device created with default parameters" ++ endl);
     FileWrite ("[2026-11-02 10:00:03] Living Room Thermostat: "
                  ++ "Device name set to: Living Room Thermostat" ++ endl);
     Cout ("[2026-11-02 10:00:03] Living Room Thermostat: "
             ++ "Device name set to: Living Room Thermostat" ++ endl)].
Proof. reflexivity. Qed.

(** Battery 10 and temperature 50 trigger both warnings; battery 50 and
    temperature 20 trigger neither. *)
Example diagnostics_both_warnings :
  diagnostic_report fixed6
    (mkSmartDevice "Hub" "Generic" true 10 (float_of_int 50) "Hall" true)
  = ["Starting diagnostics...";
     "Checking power: OK";
     "Checking battery level: 10%";
     "WARNING: Low battery detected!";
     "Checking temperature: 50.000000°C";
     "WARNING: Temperature outside normal operating range!";
     "Diagnostics completed"].
Proof. reflexivity. Qed.

Example diagnostics_no_warning :
  diagnostic_report fixed6
    (mkSmartDevice "Hub" "Generic" true 50 float_20 "Hall" true)
  = ["Starting diagnostics...";
     "Checking power: OK";
     "Checking battery level: 50%";
     "Battery level OK";
     "Checking temperature: 20.000000°C";
     "Temperature OK";
     "Diagnostics completed"].
Proof. reflexivity. Qed.

Example isLowBattery_boundary :
  isLowBattery (set_batteryLevel 19 front_door_lock) = true
  /\ isLowBattery (set_batteryLevel 20 front_door_lock) = false.
Proof. split; reflexivity. Qed.

Lemma chargeBattery_powered_off_witness :
  isPoweredOn bedroom_camera = false
  /\ chargeBattery utc_put_time 10 (bedroom_camera, sample_world)
     = (false,
        (bedroom_camera,
         mkWorld
           [FileWrite ("[2026-11-02 10:00:01] Bedroom Camera: "
                         ++ "Cannot charge - device is powered off" ++ endl);
            Cout ("[2026-11-02 10:00:01] Bedroom Camera: "
                    ++ "Cannot charge - device is powered off" ++ endl)]
           2 (time_source sample_world) (can_open sample_world))).
Proof.
  split; [reflexivity |].
  rewrite (proj1 (chargeBattery_powered_off utc_put_time 10 bedroom_camera
                    sample_world eq_refl)).
  reflexivity.
Defined.

Lemma chargeBattery_powered_nonneg_witness :
  isPoweredOn front_door_lock = true
  /\ 0 <= 30
  /\ in_percent_range (batteryLevel front_door_lock)
  /\ batteryLevel front_door_lock + 30 <= INT_MAX
  /\ chargeBattery utc_put_time 30 (front_door_lock, sample_world)
     = (true,
        (set_batteryLevel 100 front_door_lock,
         logged utc_put_time (set_batteryLevel 100 front_door_lock)
                "Battery charged by 15%. New level: 100%" sample_world)).
Proof.
  assert (H1 : isPoweredOn front_door_lock = true) by reflexivity.
  assert (H2 : 0 <= 30) by lia.
  assert (H3 : in_percent_range (batteryLevel front_door_lock))
    by (unfold in_percent_range; cbn; lia).
  assert (H4 : batteryLevel front_door_lock + 30 <= INT_MAX)
    by (unfold INT_MAX; cbn; lia).
  split; [exact H1 |]. split; [exact H2 |]. split; [exact H3 |].
  split; [exact H4 |].
  exact (chargeBattery_powered_nonneg utc_put_time 30 front_door_lock
           sample_world H1 H2 H3 H4).
Defined.

Lemma chargeBattery_no_lower_bound_witness :
  isPoweredOn front_door_lock = true
  /\ INT_MIN <= batteryLevel front_door_lock + -100 <= 100
  /\ getBatteryLevel
       (fst (snd (chargeBattery utc_put_time (-100)
                                (front_door_lock, sample_world))))
     = -15.
Proof.
  assert (H1 : isPoweredOn front_door_lock = true) by reflexivity.
  assert (H2 : INT_MIN <= batteryLevel front_door_lock + -100 <= 100)
    by (unfold INT_MIN; cbn; lia).
  split; [exact H1 | split; [exact H2 |]].
  exact (proj1 (proj2 (chargeBattery_no_lower_bound utc_put_time (-100)
                         front_door_lock sample_world H1) H2)).
Defined.

Lemma adjustTemperature_gated_witness :
  (isPoweredOn bedroom_camera = false
   /\ getTemperature
        (fst (snd (adjustTemperature utc_put_time fixed6
                     (S754_finite true 10485760 (-22))
                     (bedroom_camera, sample_world))))
      = float_20)
  /\ (isPoweredOn front_door_lock = true
      /\ getTemperature
           (fst (snd (adjustTemperature utc_put_time fixed6
                        (float_of_int (-25))
                        (front_door_lock, sample_world))))
         = S754_finite true 10485760 (-22)
      /\ float_lt (S754_finite true 10485760 (-22)) (float_of_int 0) = true).
Proof.
  split.
  - split; [reflexivity |].
    rewrite (proj1 (adjustTemperature_gated utc_put_time fixed6
                      (S754_finite true 10485760 (-22)) bedroom_camera
                      sample_world) eq_refl).
    reflexivity.
  - split; [reflexivity | split; [| reflexivity]].
    rewrite (proj1 (proj2 (adjustTemperature_gated utc_put_time fixed6
                             (float_of_int (-25)) front_door_lock
                             sample_world) eq_refl)).
    reflexivity.
Defined.

Lemma state_changes_log_exactly_once_witness :
  isPoweredOn front_door_lock = true
  /\ logs_once utc_put_time sample_world
               (chargeBattery utc_put_time 10 (front_door_lock, sample_world))
               (set_batteryLevel 95 front_door_lock)
               "Battery charged by 10%. New level: 95%"
  /\ entry_events (set_batteryLevel 95 front_door_lock)
                  (stamp utc_put_time sample_world 0)
                  "Battery charged by 10%. New level: 95%"
     = [FileWrite ("[2026-11-02 10:00:01] Front Door Lock: "
                     ++ "Battery charged by 10%. New level: 95%" ++ endl);
        Cout ("[2026-11-02 10:00:01] Front Door Lock: "
                ++ "Battery charged by 10%. New level: 95%" ++ endl)].
Proof.
  split; [reflexivity | split; [| reflexivity]].
  destruct (state_changes_log_exactly_once utc_put_time fixed6
              front_door_lock sample_world)
    as (_ & _ & _ & _ & _ & _ & _ & Hcharge & _).
  exact (Hcharge 10 eq_refl).
Defined.

Lemma sink_failure_degrades_to_console_witness :
  let ops := [SetPoweredOn true; ChargeBattery (-10)] in
  let c := NewNamedTypedAt "Bedroom Camera" "Security Camera" "Bedroom" in
  let built := new utc_put_time c readonly_world in
  let used := snd (run utc_put_time fixed6 ops built) in
  let ended := snd (destroy utc_put_time used) in
  let diagnosed := snd (call utc_put_time fixed6 PerformDiagnostics used) in
  let camera (time message : string) :=
    Cout ("[2026-11-02 " ++ time ++ "] Bedroom Camera: " ++ message ++ endl) in
  can_open readonly_world "device_log.txt" = false
  /\ since readonly_world (snd built)
     = [Cerr ("Failed to open log file: device_log.txt" ++ endl);
        Cout ("[2026-11-02 10:00:01] Unknown: "
                ++ "Device created with default parameters" ++ endl);
        camera "10:00:03" "Device name set to: Bedroom Camera";
        camera "10:00:05" "Device type set to: Security Camera";
        camera "10:00:07" "Device location set to: Bedroom"]
  /\ snd (run utc_put_time fixed6 (ops ++ [PerformDiagnostics]) built)
     = diagnosed
  /\ (fst diagnosed, since (snd used) (snd diagnosed))
     = (mkSmartDevice "Bedroom Camera" "Security Camera" true 90 float_20
                      "Bedroom" false,
        [camera "10:00:13" "Starting diagnostics...";
         camera "10:00:15" "Checking power: OK";
         camera "10:00:17" "Checking battery level: 90%";
         camera "10:00:19" "Battery level OK";
         camera "10:00:21" "Checking temperature: 20.000000°C";
         camera "10:00:23" "Temperature OK";
         camera "10:00:25" "Diagnostics completed"])
  /\ since (snd used) (snd ended)
     = [camera "10:00:13" "Device Bedroom Camera destroyed"]
  /\ error_lines (since readonly_world (snd ended))
     = ["Failed to open log file: device_log.txt" ++ endl]
  /\ file_lines (since readonly_world (snd ended)) = []
  /\ length (console_lines (since readonly_world (snd ended))) = 7%nat.
Proof.
  intros ops c built used ended diagnosed camera.
  assert (H : can_open readonly_world "device_log.txt" = false)
    by reflexivity.
  split; [exact H |].
  destruct (sink_failure_degrades_to_console utc_put_time fixed6 c ops
              readonly_world H)
    as (_ & Herr & _ & _ & _ & _ & _ & _ & _ & Hfile & _ & Hbuilt & Hcall
        & _ & Hdestroy & Hcount).
  destruct (Hcall PerformDiagnostics) as [Hrun Hout].
  split; [etransitivity; [exact Hbuilt | vm_compute; reflexivity] |].
  split; [exact Hrun |].
  split; [etransitivity; [exact Hout | vm_compute; reflexivity] |].
  split; [etransitivity; [exact Hdestroy | vm_compute; reflexivity] |].
  split; [exact Herr |]. split; [exact Hfile |].
  etransitivity; [exact Hcount | reflexivity].
Defined.

(** ** Where the claims as first stated fail *)

(** C3 as stated: from level 100, a powered device charged by the largest
    [int], which is >= 0, ends at a negative level instead of
    [min 100 (100 + 2147483647) = 100]: the sum does not fit an [int]. *)
Lemma chargeBattery_nonneg_overflow_counterexample :
  let d :=
    fst (new utc_put_time (NewFull "X" "Y" true 100 float_20 "Z")
             sample_world) in
  let r := chargeBattery utc_put_time 2147483647 (d, sample_world) in
  isPoweredOn d = true
  /\ 0 <= 2147483647 <= INT_MAX
  /\ in_percent_range (batteryLevel d)
  /\ getBatteryLevel (fst (snd r)) = -2147483549
  /\ getBatteryLevel (fst (snd r)) <> Z.min 100 (batteryLevel d + 2147483647).
Proof.
  cbv zeta. unfold in_percent_range, INT_MAX.
  repeat split; try reflexivity; try (cbn; lia).
Qed.

(** C9 as stated: a powered device constructed with battery level -100 and
    charged by the smallest [int] has [old + amount <= 100], yet ends at
    level 100, not at [old + amount]: the sum does not fit an [int]. *)
Lemma chargeBattery_underflow_counterexample :
  let d :=
    fst (new utc_put_time (NewFull "X" "Y" true (-100) float_20 "Z")
             sample_world) in
  let r := chargeBattery utc_put_time (-2147483648) (d, sample_world) in
  isPoweredOn d = true
  /\ INT_MIN <= -2147483648 <= INT_MAX
  /\ batteryLevel d + -2147483648 <= 100
  /\ getBatteryLevel (fst (snd r)) = 100
  /\ getBatteryLevel (fst (snd r)) <> batteryLevel d + -2147483648.
Proof.
  cbv zeta. unfold INT_MIN, INT_MAX.
  repeat split; try reflexivity; try (cbn; lia).
Qed.

(** C6 as stated: with battery level 50 and temperature 20 neither warning
    is triggered, and the call still emits 7 entries, not 5. *)
Lemma performDiagnostics_count_counterexample :
  let d :=
    fst (new utc_put_time
             (NewFull "Main Hub" "Control Center" true 50 float_20
                      "Living Room")
             sample_world) in
  let evs :=
    since sample_world
          (snd (snd (performDiagnostics utc_put_time fixed6
                                        (d, sample_world)))) in
  isLowBattery d = false
  /\ temperature_out_of_range d = false
  /\ length (console_lines evs) = 7%nat
  /\ length (console_lines evs)
     <> (5 + (if isLowBattery d then 1 else 0)
           + (if temperature_out_of_range d then 1 else 0))%nat.
Proof.
  cbv zeta. repeat split; try reflexivity.
  vm_compute. discriminate.
Qed.

(** C7 as stated: an object constructed while the log file cannot be opened
    changes its name and logs the change on the console, but nothing is
    written to the sink. *)
Lemma state_change_without_sink_counterexample :
  let s := new utc_put_time New readonly_world in
  let line :=
    "[2026-11-02 10:00:03] Main Hub: Device name changed to: Main Hub"
      ++ endl in
  let evs :=
    since (snd s) (snd (snd (setDeviceName utc_put_time "Main Hub" s))) in
  evs = [Cout line]
  /\ file_lines evs = []
  /\ evs <> [FileWrite line; Cout line].
Proof.
  cbv zeta. repeat split; try reflexivity.
  vm_compute. discriminate.
Qed.

(** ** Concrete runs of the further properties *)

Lemma setBatteryLevel_restores_range_witness :
  100 < 150
  /\ getBatteryLevel
       (fst (snd (setBatteryLevel utc_put_time 150
                                  (front_door_lock, sample_world))))
     = 100
  /\ -3 < 0
  /\ getBatteryLevel
       (fst (snd (setBatteryLevel utc_put_time (-3)
                                  (front_door_lock, sample_world))))
     = 0.
Proof.
  assert (H1 : 100 < 150) by lia.
  assert (H2 : -3 < 0) by lia.
  split; [exact H1 |]. split.
  - exact (proj1 (proj2 (proj2 (proj2
             (setBatteryLevel_restores_range utc_put_time 150
                front_door_lock sample_world)))) H1).
  - split; [exact H2 |].
    exact (proj1 (proj2 (proj2
             (setBatteryLevel_restores_range utc_put_time (-3)
                front_door_lock sample_world))) H2).
Defined.

Lemma chargeBattery_caps_at_100_witness :
  let d :=
    fst (new utc_put_time (NewFull "X" "Y" true 150 float_22_5 "Z")
             sample_world) in
  isPoweredOn d = true
  /\ 100 <= batteryLevel d + 0 <= INT_MAX
  /\ getBatteryLevel
       (fst (snd (chargeBattery utc_put_time 0 (d, sample_world))))
     = 100.
Proof.
  intros d.
  assert (H1 : isPoweredOn d = true) by reflexivity.
  assert (H2 : 100 <= batteryLevel d + 0 <= INT_MAX)
    by (unfold INT_MAX; cbn; lia).
  split; [exact H1 |]. split; [exact H2 |].
  exact (proj2 (chargeBattery_caps_at_100 utc_put_time 0 d sample_world H1)
               H2).
Defined.

Lemma battery_range_kept_witness :
  let c :=
    NewFull "Front Door Lock" "Security Lock" true 85 float_22_5
            "Front Door" in
  let ops := [ChargeBattery 10; SetBatteryLevel 150; ChargeBattery 30] in
  in_percent_range 85
  /\ forallb charge_in_range ops = true
  /\ in_percent_range
       (getBatteryLevel
          (fst (snd (run utc_put_time fixed6 (firstn 3 ops)
                         (new utc_put_time c sample_world))))).
Proof.
  intros c ops.
  assert (H1 : in_percent_range 85) by (unfold in_percent_range; lia).
  assert (H2 : forallb charge_in_range ops = true) by reflexivity.
  split; [exact H1 |]. split; [exact H2 |].
  exact (battery_range_kept utc_put_time fixed6 c ops sample_world 3 H1 H2).
Defined.

Lemma sink_mirrors_console_witness :
  let c := NewNamed "Living Room Thermostat" in
  let ops := [SetPoweredOn true; ChargeBattery 10; PerformDiagnostics] in
  let final :=
    snd (destroy utc_put_time
           (snd (run utc_put_time fixed6 ops
                     (new utc_put_time c sample_world)))) in
  can_open sample_world "device_log.txt" = true
  /\ forallb logs_only ops = true
  /\ file_lines (since sample_world (snd final))
     = console_lines (since sample_world (snd final)).
Proof.
  intros c ops final.
  assert (H1 : can_open sample_world "device_log.txt" = true)
    by reflexivity.
  assert (H2 : forallb logs_only ops = true) by reflexivity.
  split; [exact H1 |]. split; [exact H2 |].
  exact (sink_mirrors_console utc_put_time fixed6 c ops sample_world H1 H2).
Defined.

Lemma displayInfo_shows_members_witness :
  let d' := set_logFile_is_open false front_door_lock in
  fields front_door_lock = fields d'
  /\ console_lines
       (since sample_world
              (snd (snd (displayInfo fixed6 (front_door_lock, sample_world)))))
     = console_lines
         (since readonly_world
                (snd (snd (displayInfo fixed6 (d', readonly_world))))).
Proof.
  intros d'.
  assert (H : fields front_door_lock = fields d') by reflexivity.
  split; [exact H |].
  exact (proj2 (proj2 (proj2
           (displayInfo_shows_members fixed6 front_door_lock d'
              sample_world readonly_world H)))).
Defined.
